(** * SihatAI step engine: the detectors, the calibration, the daily ledger,
      the history reader and the health-app comparison

    Shallow embedding of [services/step-counter.ts] (class
    [StepCounterService]), [services/ios-step-helper.ts] (class
    [IOSStepCounterHelper]) and of [syncWithHealthKit] from
    [services/ios-health-service.ts].

    Representation choices.
    - Sensor readings, magnitudes and thresholds are JavaScript numbers used
      as binary64 values: they are Rocq's primitive [float], whose operations
      are the IEEE ones JavaScript uses.
    - Step counts, [Date.now()] stamps and loop indices are JavaScript numbers
      used as integers: they are [Z] (exact for the code as long as they stay
      below 2^53).
    - A calendar date string [YYYY-MM-DD] is represented by its day number
      (days since the epoch, UTC), and the storage key
      [daily_steps_<date>] by the same number. [Date.setDate], which works
      on the local wall clock, is [Calendar.setDateBy], over the offsets of
      the device's time zone; [StepCounterService.getStepHistory] is the
      history reader in a zone whose offset never changes, where
      [setDate(getDate() - i)] moves the ISO date back by exactly [i], and
      [ZonedHistory.getStepHistoryIn] the reader in any zone.
    - [AsyncStorage] only ever receives [JSON.stringify] of a [StepData], so
      the store maps a day to the [StepData] that [JSON.parse] gives back;
      its reads and writes succeed ([ZonedHistory.Read] has the reads that
      fail).
    - [Date.now()] and [new Date()] are an argument [now] of the operation
      that reads the clock. *)

From Stdlib Require Import ZArith List String Bool Lia DecimalString.
From Stdlib Require Import Floats.
From stdpp Require Import gmap.

Set Warnings "-inexact-float".

Local Open Scope Z_scope.

(** ** JavaScript numbers *)

Module JS.

(** [a > b] and [a <= b] on numbers. *)
Definition gt (a b : float) : bool := PrimFloat.ltb b a.
Definition le (a b : float) : bool := PrimFloat.leb a b.

(** [Math.max(a, b)]: NaN if either is NaN, and [+0] is larger than [-0]. *)
Definition Math_max (a b : float) : float :=
  if is_nan a || is_nan b then nan
  else if PrimFloat.ltb a b then b
  else if PrimFloat.ltb b a then a
  else if get_sign a then b else a.

(** [Math.min(a, b)]: NaN if either is NaN, and [-0] is smaller than [+0]. *)
Definition Math_min (a b : float) : float :=
  if is_nan a || is_nan b then nan
  else if PrimFloat.ltb a b then a
  else if PrimFloat.ltb b a then b
  else if get_sign a then a else b.

Definition Math_abs : float -> float := PrimFloat.abs.
Definition Math_sqrt : float -> float := PrimFloat.sqrt.

(** [Math.pow(v, 2)], taken as the correctly rounded square. *)
Definition Math_pow2 (v : float) : float := PrimFloat.mul v v.

(** An integer-valued number seen as a binary64 value (rounded to nearest
    above 2^53). *)
Definition of_Z (n : Z) : float :=
  SF2Prim (binary_normalize prec emax n 0 false).

(** [xs.reduce((a, b) => a + b, 0)]. *)
Definition sum (xs : list float) : float :=
  fold_left PrimFloat.add xs PrimFloat.zero.

(** [`${n}`] for an integer-valued number: its decimal digits. *)
Definition show (n : Z) : string := NilZero.string_of_int (Z.to_int n).

(** Concatenation of the pieces of a template literal. *)
Definition template (pieces : list string) : string :=
  fold_right String.append EmptyString pieces.

(** [xs.length] as a number. *)
Definition flength {A} (xs : list A) : float :=
  of_Z (Z.of_nat (List.length xs)).

End JS.

(** ** Order facts on binary64 values, from the specification of the
       primitive comparisons *)

Section FloatOrder.

Lemma SFcompare_antisym x y :
  SFcompare y x = option_map CompOpp (SFcompare x y).
Proof.
  destruct x as [sx|sx| |sx mx ex], y as [sy|sy| |sy my ey]; simpl;
    try reflexivity;
    try (destruct sx; reflexivity);
    try (destruct sy; reflexivity);
    try (destruct sx, sy; reflexivity).
  destruct sx, sy; simpl; try reflexivity;
    rewrite (Z.compare_antisym ex ey);
    destruct (ex ?= ey)%Z eqn:E; simpl; try reflexivity;
    try rewrite CompOpp_involutive; f_equal.
  - exact (Pos.compare_cont_antisym my mx Eq).
  - symmetry. exact (Pos.compare_cont_antisym mx my Eq).
Qed.

Lemma is_nan_false_compare a :
  is_nan a = false -> SFcompare (Prim2SF a) (Prim2SF a) = Some Eq.
Proof.
  unfold is_nan. rewrite FloatAxioms.eqb_spec. unfold SFeqb.
  destruct (SFcompare (Prim2SF a) (Prim2SF a)) as [[]|]; simpl; congruence.
Qed.

Lemma is_nan_false_SF a :
  is_nan a = false -> Prim2SF a <> S754_nan.
Proof.
  intros H E. apply is_nan_false_compare in H. rewrite E in H. discriminate.
Qed.

Lemma SFcompare_total x y :
  x <> S754_nan -> y <> S754_nan -> SFcompare x y <> None.
Proof.
  destruct x, y; simpl; congruence.
Qed.

(** [a <= b] excludes [a > b]. *)
Lemma le_not_gt a b : JS.le a b = true -> JS.gt a b = false.
Proof.
  unfold JS.le, JS.gt. rewrite FloatAxioms.leb_spec, FloatAxioms.ltb_spec. unfold SFleb, SFltb.
  rewrite (SFcompare_antisym (Prim2SF a) (Prim2SF b)).
  destruct (SFcompare (Prim2SF a) (Prim2SF b)) as [[]|]; simpl; congruence.
Qed.

Lemma gt_not_le a b : JS.gt a b = true -> JS.le a b = false.
Proof.
  intros H. destruct (JS.le a b) eqn:E; [|reflexivity].
  apply le_not_gt in E. congruence.
Qed.

Lemma ltb_leb a b : PrimFloat.ltb a b = true -> PrimFloat.leb a b = true.
Proof.
  rewrite FloatAxioms.leb_spec, FloatAxioms.ltb_spec. unfold SFleb, SFltb.
  destruct (SFcompare (Prim2SF a) (Prim2SF b)) as [[]|]; simpl; congruence.
Qed.

Lemma not_ltb_leb a b :
  is_nan a = false -> is_nan b = false ->
  PrimFloat.ltb a b = false -> PrimFloat.leb b a = true.
Proof.
  intros Ha Hb. rewrite FloatAxioms.leb_spec, FloatAxioms.ltb_spec. unfold SFleb, SFltb.
  rewrite (SFcompare_antisym (Prim2SF a) (Prim2SF b)).
  pose proof (SFcompare_total _ _ (is_nan_false_SF a Ha) (is_nan_false_SF b Hb)).
  destruct (SFcompare (Prim2SF a) (Prim2SF b)) as [[]|]; simpl; congruence.
Qed.

Lemma leb_refl a : is_nan a = false -> PrimFloat.leb a a = true.
Proof.
  intros Ha. rewrite FloatAxioms.leb_spec. unfold SFleb.
  rewrite (is_nan_false_compare a Ha). reflexivity.
Qed.

End FloatOrder.

(** ** Data model *)

(** [interface StepData]. *)
Record StepData := mkStepData {
  steps : Z;
  date : Z;
  lastUpdate : Z
}.

(** [Platform.OS]. *)
Inductive Platform := ios | android | web.

Definition is_ios (p : Platform) : bool :=
  match p with ios => true | _ => false end.

(** What awaiting a call of an external collaborator gives: a value, or a
    rejection that the caller's [catch] receives. *)
Inductive Outcome (A : Type) :=
  | Returns (a : A)
  | Throws (error : string).
Arguments Returns {A} a.
Arguments Throws {A} error.

(** The day of a [Date.now()] stamp: [toISOString().split('T')[0]]. *)
Definition msPerDay : Z := 86400000.
Definition dayOf (now : Z) : Z := now / msPerDay.

(** ** [IOSStepCounterHelper]: the windowed peak detector *)

Module IOSStepCounterHelper.

Record t := mk {
  stepBuffer : list float;
  lastStepTime : Z;
  stepThreshold : float;
  stepCount : Z
}.

Definition bufferSize : nat := 20.

(** Field initialisers of the class. *)
Definition new : t := mk [] 0 0.3%float 0.

Definition detectStepFromAcceleration
    (currentTime : Z) (x y z : float) (h : t) : bool * t :=
  let verticalAcceleration := JS.Math_abs z in
  let pushed := stepBuffer h ++ [verticalAcceleration] in
  let buf := if Nat.ltb bufferSize (length pushed) then tl pushed else pushed in
  let h1 := mk buf (lastStepTime h) (stepThreshold h) (stepCount h) in
  if Nat.ltb (length buf) bufferSize then (false, h1)
  else
    let average := PrimFloat.div (JS.sum buf) (JS.flength buf) in
    let current := nth (length buf - 1) buf nan in
    let previous := nth (length buf - 2) buf nan in
    let isPeak :=
      JS.gt current previous
      && JS.gt current (PrimFloat.add average (stepThreshold h))
      && (300 <? currentTime - lastStepTime h) in
    if isPeak
    then (true, mk buf currentTime (stepThreshold h) (stepCount h + 1))
    else (false, h1).

Definition getStepCount (h : t) : Z := stepCount h.

Definition resetStepCount (h : t) : t :=
  mk [] (lastStepTime h) (stepThreshold h) 0.

Definition addSteps (n : Z) (h : t) : t :=
  mk (stepBuffer h) (lastStepTime h) (stepThreshold h) (stepCount h + n).

Definition calibrateForUser (samples : list float) (h : t) : t :=
  if Nat.ltb (length samples) 10 then h
  else
    let mean := PrimFloat.div (JS.sum samples) (JS.flength samples) in
    let squareDiffs :=
      List.map (fun value => JS.Math_pow2 (PrimFloat.sub value mean)) samples in
    let avgSquareDiff := PrimFloat.div (JS.sum squareDiffs) (JS.flength samples) in
    let stdDev := JS.Math_sqrt avgSquareDiff in
    mk (stepBuffer h) (lastStepTime h)
       (JS.Math_max 0.2%float (JS.Math_min 0.8%float (PrimFloat.mul stdDev 1.5%float)))
       (stepCount h).

Definition getThreshold (h : t) : float := stepThreshold h.

Definition setThreshold (threshold : float) (h : t) : t :=
  mk (stepBuffer h) (lastStepTime h)
     (JS.Math_max 0.1%float (JS.Math_min 1.0%float threshold))
     (stepCount h).

(** One accelerometer reading with the clock at its delivery. *)
Definition Reading : Type := Z * (float * float * float).

(** The detector fed a sequence of readings: the flag of every call, and
    the final state. *)
Fixpoint feed (rs : list Reading) (h : t) : list bool * t :=
  match rs with
  | [] => ([], h)
  | (now, (x, y, z)) :: rest =>
      let (fired, h1) := detectStepFromAcceleration now x y z h in
      let (flags, h2) := feed rest h1 in
      (fired :: flags, h2)
  end.

End IOSStepCounterHelper.

(** ** The process state and the monad that threads it *)

(** Fields of [StepCounterService]. [onStepCountUpdate] records whether a
    callback is registered. *)
Record Service := mkService {
  stepCount : Z;
  lastMagnitude : float;
  stepThreshold : float;
  lastStepTime : Z;
  minStepInterval : Z;
  onStepCountUpdate : bool
}.

(** The service, the [IOSStepCounterHelper] singleton that [this.iosHelper]
    points to when [Platform.OS === 'ios'], the contents of [AsyncStorage],
    and the arguments the registered callback has received (newest first). *)
Record World := mkWorld {
  platform : Platform;
  service : Service;
  iosHelper : IOSStepCounterHelper.t;
  storage : gmap Z StepData;
  updates : list Z
}.

Definition M (A : Type) : Type := World -> A * World.

Definition ret {A} (a : A) : M A := fun w => (a, w).

Definition bind {A B} (m : M A) (k : A -> M B) : M B :=
  fun w => let (a, w1) := m w in k a w1.

Notation "'do' x <- m ; k" := (bind m (fun x => k))
  (at level 10, x name, m at level 100, k at level 200).
Notation "m ;; k" := (bind m (fun _ => k))
  (at level 100, k at level 200, right associativity).

Definition gets {A} (f : World -> A) : M A := fun w => (f w, w).
Definition modify (f : World -> World) : M unit := fun w => (tt, f w).
Definition when (b : bool) (m : M unit) : M unit := if b then m else ret tt.
Definition exec {A} (m : M A) (w : World) : World := snd (m w).
Definition eval {A} (m : M A) (w : World) : A := fst (m w).

Definition with_service (f : Service -> Service) (w : World) : World :=
  mkWorld (platform w) (f (service w)) (iosHelper w) (storage w) (updates w).
Definition with_helper (f : IOSStepCounterHelper.t -> IOSStepCounterHelper.t)
    (w : World) : World :=
  mkWorld (platform w) (service w) (f (iosHelper w)) (storage w) (updates w).
Definition with_storage (f : gmap Z StepData -> gmap Z StepData) (w : World) : World :=
  mkWorld (platform w) (service w) (iosHelper w) (f (storage w)) (updates w).

Definition set_stepCount (n : Z) (s : Service) : Service :=
  mkService n (lastMagnitude s) (stepThreshold s) (lastStepTime s)
            (minStepInterval s) (onStepCountUpdate s).
Definition set_lastMagnitude (m : float) (s : Service) : Service :=
  mkService (stepCount s) m (stepThreshold s) (lastStepTime s)
            (minStepInterval s) (onStepCountUpdate s).
Definition set_stepThreshold (t : float) (s : Service) : Service :=
  mkService (stepCount s) (lastMagnitude s) t (lastStepTime s)
            (minStepInterval s) (onStepCountUpdate s).
Definition set_lastStepTime (t : Z) (s : Service) : Service :=
  mkService (stepCount s) (lastMagnitude s) (stepThreshold s) t
            (minStepInterval s) (onStepCountUpdate s).
Definition set_onStepCountUpdate (b : bool) (s : Service) : Service :=
  mkService (stepCount s) (lastMagnitude s) (stepThreshold s) (lastStepTime s)
            (minStepInterval s) b.

(** ** [StepCounterService] *)

Module StepCounterService.

(** [Platform.OS === 'ios' && this.iosHelper]: the constructor sets
    [iosHelper] exactly on iOS. *)
Definition onIOS : M bool := gets (fun w => is_ios (platform w)).

(** Field initialisers of the class. *)
Definition fields : Service := mkService 0 0%float 1.2%float 0 200 false.

Definition loadTodaysSteps (now : Z) : M unit :=
  do stored <- gets (fun w => storage w !! dayOf now);
  match stored with
  | Some stepData => modify (with_service (set_stepCount (steps stepData)))
  | None => modify (with_service (set_stepCount 0))
  end.

Definition saveTodaysSteps (now : Z) : M unit :=
  do count <- gets (fun w => stepCount (service w));
  let today := dayOf now in
  modify (with_storage (insert today (mkStepData count today now))).

(** [if (this.onStepCountUpdate) this.onStepCountUpdate(this.stepCount)]. *)
Definition notify : M unit :=
  do s <- gets service;
  when (onStepCountUpdate s)
    (modify (fun w => mkWorld (platform w) (service w) (iosHelper w)
                              (storage w) (stepCount s :: updates w))).

(** [new StepCounterService()] in a process whose helper singleton is [h]
    and whose store is [store]; the load started by the constructor has
    completed. *)
Definition construct (os : Platform) (h : IOSStepCounterHelper.t)
    (store : gmap Z StepData) (now : Z) : World :=
  exec (loadTodaysSteps now) (mkWorld os fields h store []).

Definition detectStep (currentTime : Z) (magnitude : float) : M unit :=
  do s <- gets service;
  when (JS.gt magnitude (stepThreshold s)
        && JS.le (lastMagnitude s) (stepThreshold s)
        && (minStepInterval s <? currentTime - lastStepTime s))
    (modify (with_service (fun s =>
       set_lastStepTime currentTime (set_stepCount (stepCount s + 1) s))) ;;
     notify ;;
     do count <- gets (fun w => stepCount (service w));
     when (Z.rem count 10 =? 0) (saveTodaysSteps currentTime)) ;;
  modify (with_service (set_lastMagnitude magnitude)).

(** The listener that [startStepCounting] registers with the
    accelerometer. *)
Definition onAccelerometer (now : Z) (x y z : float) : M unit :=
  do useHelper <- onIOS;
  if useHelper then
    do h <- gets iosHelper;
    let (stepDetected, h1) :=
      IOSStepCounterHelper.detectStepFromAcceleration now x y z h in
    modify (with_helper (fun _ => h1)) ;;
    when stepDetected
      (modify (with_service (set_stepCount (IOSStepCounterHelper.getStepCount h1))) ;;
       notify ;;
       do count <- gets (fun w => stepCount (service w));
       when (Z.rem count 10 =? 0) (saveTodaysSteps now))
  else
    let magnitude :=
      JS.Math_sqrt (PrimFloat.add (PrimFloat.add (PrimFloat.mul x x) (PrimFloat.mul y y))
                                  (PrimFloat.mul z z)) in
    detectStep now magnitude.

Definition stopStepCounting (now : Z) : M unit := saveTodaysSteps now.

Definition getCurrentStepCount : M Z :=
  do useHelper <- onIOS;
  if useHelper then gets (fun w => IOSStepCounterHelper.getStepCount (iosHelper w))
  else gets (fun w => stepCount (service w)).

Definition setStepCountUpdateListener : M unit :=
  modify (with_service (set_onStepCountUpdate true)).
Definition removeStepCountUpdateListener : M unit :=
  modify (with_service (set_onStepCountUpdate false)).

Definition addSteps (now : Z) (n : Z) : M unit :=
  do useHelper <- onIOS;
  (if useHelper then
     modify (with_helper (IOSStepCounterHelper.addSteps n)) ;;
     do c <- gets (fun w => IOSStepCounterHelper.getStepCount (iosHelper w));
     modify (with_service (set_stepCount c))
   else
     modify (with_service (fun s => set_stepCount (stepCount s + n) s))) ;;
  saveTodaysSteps now ;;
  notify.

Definition resetDailySteps (now : Z) : M unit :=
  do useHelper <- onIOS;
  when useHelper (modify (with_helper IOSStepCounterHelper.resetStepCount)) ;;
  modify (with_service (set_stepCount 0)) ;;
  saveTodaysSteps now ;;
  notify.

Definition getStepThreshold : M float := gets (fun w => stepThreshold (service w)).

Definition setStepThreshold (threshold : float) : M unit :=
  modify (with_service (set_stepThreshold
    (JS.Math_max 0.5%float (JS.Math_min 3.0%float threshold)))).

(** *** Health app: synchronisation and comparison *)

(** What [this.iosHealthService] answers to the two calls the service
    makes, [isAvailable()] and [getStepsFromHealthApp()]. The class in
    [ios-health-service.ts] declares neither method, so the answers are
    taken as given: a value, or a rejection. *)
Record HealthProvider := mkProvider {
  isAvailable : Outcome bool;
  getStepsFromHealthApp : Outcome (option Z)
}.

Inductive Source := health_app | accelerometer | unavailable.

Record SyncResult := mkSync {
  success : bool;
  sync_healthAppSteps : option Z;
  sync_accelerometerSteps : Z;
  source : Source;
  message : string
}.

Definition syncWithHealthApp (now : Z) (p : HealthProvider) : M SyncResult :=
  do count0 <- gets (fun w => stepCount (service w));
  let result src msg := mkSync false None count0 src msg in
  do useHealth <- onIOS;
  if negb useHealth then
    ret (result unavailable
           "iOS Health integration only available on iOS devices"%string)
  else
    match isAvailable p with
    | Throws error =>
        ret (result accelerometer
               (JS.template ["Health app sync failed: "; error]%string))
    | Returns false =>
        ret (result unavailable "iOS Health app not available on this device"%string)
    | Returns true =>
        match getStepsFromHealthApp p with
        | Throws error =>
            ret (result accelerometer
                   (JS.template ["Health app sync failed: "; error]%string))
        | Returns (Some healthAppSteps) =>
            modify (with_service (set_stepCount healthAppSteps)) ;;
            saveTodaysSteps now ;;
            notify ;;
            do count <- gets (fun w => stepCount (service w));
            ret (mkSync true (Some healthAppSteps) count health_app
                   (JS.template ["Synced "; JS.show healthAppSteps;
                                 " steps from iOS Health app"]%string))
        | Returns None =>
            ret (result accelerometer
                   "Health app data not accessible. Using motion sensors."%string)
        end
    end.

Record Comparison := mkComparison {
  accelerometerSteps : Z;
  healthAppSteps : option Z;
  accuracy : string;
  recommendation : string
}.

(** [(difference / Math.max(stepCount, healthAppSteps)) * 100]. *)
Definition percentageDiff (count healthAppSteps : Z) : float :=
  let difference := Z.abs (count - healthAppSteps) in
  PrimFloat.mul
    (PrimFloat.div (JS.of_Z difference) (JS.of_Z (Z.max count healthAppSteps)))
    100%float.

Definition compareWithHealthApp (p : HealthProvider) : M Comparison :=
  do useHealth <- onIOS;
  do count <- gets (fun w => stepCount (service w));
  if negb useHealth then
    ret (mkComparison count None "unknown"
           "iOS Health comparison only available on iOS devices")%string
  else
    match getStepsFromHealthApp p with
    | Throws error =>
        ret (mkComparison count None "error"
               (JS.template ["Comparison failed: "; error]))%string
    | Returns None =>
        ret (mkComparison count None "unknown" "Health app data not available")%string
    | Returns (Some h) =>
        if JS.le (percentageDiff count h) 10%float then
          ret (mkComparison count (Some h) "similar"
                 "Motion sensor and Health app data are similar. Good accuracy!")%string
        else
          ret (mkComparison count (Some h) "different"
                 (JS.template ["Motion sensors: "; JS.show count;
                               ", Health app: "; JS.show h;
                               ". Consider calibration."]))%string
    end.

(** *** History *)

(** The [for] loop of [getStepHistory], [n] iterations from index [i], in a
    zone whose offset never changes and with reads that succeed:
    [setDate(getDate() - i)] then moves the instant by [i] times 24 hours,
    and its ISO date by [i]. The loop with the zone's offsets and with reads
    that can fail is [ZonedHistory.historyLoopIn], of which this is the
    instance [ZonedHistory.getStepHistoryIn_fixedOffset]. *)
Fixpoint historyLoop (today : Z) (store : gmap Z StepData)
    (i : Z) (n : nat) (history : list StepData) : list StepData :=
  match n with
  | O => history
  | S n' =>
      let dateStr := today - i in
      let entry :=
        match store !! dateStr with
        | Some stored => stored
        | None => mkStepData 0 dateStr 0
        end in
      historyLoop today store (i + 1) n' (history ++ [entry])
  end.

Definition getStepHistory (now : Z) (days : Z) : M (list StepData) :=
  do store <- gets storage;
  ret (rev (historyLoop (dayOf now) store 0 (Z.to_nat days) [])).

(** *** Calibration *)

(** The locals of one [calibrateStepDetection] call: the captured
    magnitudes, the start stamp, whether the calibration listener is still
    subscribed, and whether the promise has resolved. *)
Record Calibration := mkCalibration {
  samples : list float;
  startTime : Z;
  calibrationSubscription : bool;
  resolved : bool
}.

Definition calibrationDuration : Z := 30000.

Definition calibrateStepDetection (now : Z) : Calibration :=
  mkCalibration [] now true false.

(** The threshold computed from the captured magnitudes. *)
Definition calibratedThreshold (samples : list float) : float :=
  let avgMagnitude := PrimFloat.div (JS.sum samples) (JS.flength samples) in
  let variance :=
    PrimFloat.div
      (fold_left (fun acc val =>
                    PrimFloat.add acc (JS.Math_pow2 (PrimFloat.sub val avgMagnitude)))
                 samples 0%float)
      (JS.flength samples) in
  let stdDev := JS.Math_sqrt variance in
  let threshold := PrimFloat.add avgMagnitude (PrimFloat.mul 1.5%float stdDev) in
  JS.Math_max 0.8%float (JS.Math_min 2.0%float threshold).

(** The listener the calibration registers; once removed it receives
    nothing. *)
Definition calibrationListener (now : Z) (x y z : float) (c : Calibration)
    : M Calibration :=
  if negb (calibrationSubscription c) then ret c
  else
    let magnitude :=
      JS.Math_sqrt (PrimFloat.add (PrimFloat.add (PrimFloat.mul x x) (PrimFloat.mul y y))
                                  (PrimFloat.mul z z)) in
    let samples1 := samples c ++ [magnitude] in
    if calibrationDuration <? now - startTime c then
      when (Nat.ltb 0 (length samples1))
        (modify (with_service (set_stepThreshold (calibratedThreshold samples1)))) ;;
      ret (mkCalibration samples1 (startTime c) false true)
    else
      ret (mkCalibration samples1 (startTime c) true false).

(** A calibration session fed a sequence of readings. *)
Fixpoint calibrate (rs : list IOSStepCounterHelper.Reading) (c : Calibration)
    : M Calibration :=
  match rs with
  | [] => ret c
  | (now, (x, y, z)) :: rest =>
      do c1 <- calibrationListener now x y z c;
      calibrate rest c1
  end.

End StepCounterService.

(** ** [IOSHealthService.syncWithHealthKit] *)

Module IOSHealthService.

(** [interface HealthData]. *)
Record HealthData := mkHealthData {
  hd_steps : Z;
  hd_date : Z;
  hd_source : string;
  hd_confidence : float
}.

(** [healthKitData] is what [getStepCount(date)] resolved to. *)
Definition syncWithHealthKit (healthKitData : option HealthData)
    (appSteps : Z) (date : Z) : option HealthData :=
  match healthKitData with
  | None => None
  | Some data =>
      if JS.gt (JS.of_Z (hd_steps data)) (PrimFloat.mul (JS.of_Z appSteps) 1.2%float)
      then Some data
      else Some (mkHealthData appSteps date "SihatAI App" 1.0%float)
  end.

End IOSHealthService.

(** * The hysteresis detector *)

Module Hysteresis.

Import StepCounterService.

(** A metric with the clock at its arrival. *)
Definition Metric : Type := Z * float.

(** The firing rule in the specification's words: the metric is strictly
    above the threshold, the previous metric was at or below it, and more
    than the interval has elapsed since the last accepted event. *)
Definition fires (threshold : float) (interval : Z)
    (previous : float) (lastEvent : Z) (now : Z) (metric : float) : bool :=
  JS.gt metric threshold
  && JS.le previous threshold
  && (interval <? now - lastEvent).

(** The samples of a sequence on which the rule fires, the previous
    metric and the last accepted event being carried along. *)
Fixpoint events (threshold : float) (interval : Z)
    (previous : float) (lastEvent : Z) (ms : list Metric) : list bool :=
  match ms with
  | [] => []
  | (now, metric) :: rest =>
      let f := fires threshold interval previous lastEvent now metric in
      f :: events threshold interval metric (if f then now else lastEvent) rest
  end.

(** The code: [detectStep] called on each metric in turn, and by how much
    [stepCount] moved on each call. *)
Fixpoint increments (ms : list Metric) (w : World) : list Z :=
  match ms with
  | [] => []
  | (now, metric) :: rest =>
      let w1 := exec (detectStep now metric) w in
      (stepCount (service w1) - stepCount (service w)) :: increments rest w1
  end.

Fixpoint feed (ms : list Metric) : M unit :=
  match ms with
  | [] => ret tt
  | (now, metric) :: rest => detectStep now metric ;; feed rest
  end.

Definition bump (f : bool) : Z := if f then 1 else 0.

Lemma detectStep_service w now metric :
  let s := service w in
  let f := fires (stepThreshold s) (minStepInterval s)
                 (lastMagnitude s) (lastStepTime s) now metric in
  service (exec (detectStep now metric) w)
  = mkService (stepCount s + bump f) metric (stepThreshold s)
              (if f then now else lastStepTime s)
              (minStepInterval s) (onStepCountUpdate s).
Proof.
  destruct w as [os [c lm th lt gap cb] h st ups].
  unfold fires, detectStep, exec, bind, gets, when, modify, notify,
    saveTodaysSteps, ret; cbn.
  unfold JS.gt, JS.le.
  destruct (PrimFloat.ltb th metric && PrimFloat.leb lm th && (gap <? now - lt));
    cbn.
  - destruct cb; cbn; destruct (Z.rem (c + 1) 10 =? 0); reflexivity.
  - rewrite Z.add_0_r. reflexivity.
Qed.


Lemma increments_events ms : forall w,
  increments ms w
  = List.map bump
      (events (stepThreshold (service w)) (minStepInterval (service w))
              (lastMagnitude (service w)) (lastStepTime (service w)) ms).
Proof.
  induction ms as [|[now metric] rest IH]; intros w; [reflexivity|].
  cbn [increments events List.map].
  rewrite IH, (detectStep_service w now metric). cbn.
  f_equal. lia.
Qed.

Lemma feed_count ms : forall w,
  stepCount (service (exec (feed ms) w))
  = stepCount (service w) + fold_right Z.add 0 (increments ms w).
Proof.
  induction ms as [|[now metric] rest IH]; intros w.
  - cbn. lia.
  - cbn [feed increments fold_right]. unfold exec, bind in *.
    destruct (detectStep now metric w) as [[] w1]; cbn [snd].
    rewrite (IH w1). lia.
Qed.

(** Metrics at or below the threshold never fire. *)
Lemma events_below threshold interval ms : forall previous lastEvent,
  Forall (fun m : Metric => JS.le (snd m) threshold = true) ms ->
  events threshold interval previous lastEvent ms = repeat false (length ms).
Proof.
  induction ms as [|[now metric] rest IH]; intros previous lastEvent H;
    [reflexivity|].
  inversion H as [|? ? Hm Hrest]; subst. cbn in Hm.
  cbn [events length repeat]. unfold fires.
  rewrite (le_not_gt _ _ Hm). cbn. f_equal. apply IH. exact Hrest.
Qed.

(** Within the interval after an accepted event nothing fires. *)
Lemma events_debounced threshold interval lastEvent ms : forall previous,
  Forall (fun m : Metric => fst m - lastEvent <= interval) ms ->
  events threshold interval previous lastEvent ms = repeat false (length ms).
Proof.
  induction ms as [|[now metric] rest IH]; intros previous H; [reflexivity|].
  inversion H as [|? ? Hm Hrest]; subst. cbn in Hm.
  cbn [events length repeat]. unfold fires.
  assert (E : (interval <? now - lastEvent) = false) by (apply Z.ltb_ge; lia).
  rewrite E, andb_false_r. f_equal. apply IH. exact Hrest.
Qed.

Lemma sum_bump_repeat_false n :
  fold_right Z.add 0 (List.map bump (repeat false n)) = 0.
Proof. induction n; cbn; auto. Qed.

(** C1. Fed any sequence of metrics, [detectStep] moves the step count on a
    sample by exactly 1 when the metric is strictly above the threshold, the
    previous metric was at or below it and more than [minStepInterval] has
    elapsed since the last accepted event, and by 0 otherwise; the interval
    is 200 ms in a fresh service. Hence metrics all at or below the
    threshold give no event, and an accepted rising edge followed by
    samples that all arrive within the interval (a second rising edge among
    them) gives exactly one event. *)
Theorem detectStep_fires_exactly_on_rising_edges :
  forall (w : World) (ms : list Metric),
    let s := service w in
    increments ms w
    = List.map bump (events (stepThreshold s) (minStepInterval s)
                            (lastMagnitude s) (lastStepTime s) ms)
    /\ minStepInterval fields = 200
    /\ (Forall (fun m : Metric => JS.le (snd m) (stepThreshold s) = true) ms ->
        stepCount (service (exec (feed ms) w)) = stepCount s)
    /\ (forall now metric,
        fires (stepThreshold s) (minStepInterval s)
              (lastMagnitude s) (lastStepTime s) now metric = true ->
        Forall (fun m : Metric => fst m - now <= minStepInterval s) ms ->
        stepCount (service (exec (feed ((now, metric) :: ms)) w))
        = stepCount s + 1).
Proof.
  intros w ms s. split; [apply increments_events|].
  split; [reflexivity|]. split.
  - intros H. rewrite feed_count, increments_events.
    fold s. rewrite (events_below _ _ _ _ _ H), sum_bump_repeat_false. lia.
  - intros now metric Hf H. rewrite feed_count, increments_events.
    fold s. cbn [events]. rewrite Hf.
    rewrite (events_debounced _ _ _ _ _ H). cbn [List.map fold_right bump].
    rewrite sum_bump_repeat_false. lia.
Qed.

End Hysteresis.

Lemma detectStep_examples :
  let w := StepCounterService.construct android IOSStepCounterHelper.new ∅ 0 in
  stepCount (service (exec (Hysteresis.feed
     [(1000, 0.5%float); (1300, 1.0%float)]) w)) = 0
  /\ stepCount (service (exec (Hysteresis.feed
     [(1000, 1.5%float); (1050, 0.5%float); (1100, 1.5%float)]) w)) = 1.
Proof.
  split.
  - destruct (Hysteresis.detectStep_fires_exactly_on_rising_edges
                (StepCounterService.construct android IOSStepCounterHelper.new ∅ 0)
                [(1000, 0.5%float); (1300, 1.0%float)]) as (_ & _ & Below & _).
    apply Below. repeat constructor.
  - destruct (Hysteresis.detectStep_fires_exactly_on_rising_edges
                (StepCounterService.construct android IOSStepCounterHelper.new ∅ 0)
                [(1050, 0.5%float); (1100, 1.5%float)]) as (_ & _ & _ & Once).
    apply (Once 1000 1.5%float).
    + reflexivity.
    + repeat (constructor; [vm_compute; discriminate|]). constructor.
Defined.

(** * The windowed peak detector *)

Module Windowed.

Import IOSStepCounterHelper.

Definition capacity : nat := 20.

(** The rolling buffer in the specification's words: the most recent
    [capacity] metrics of everything fed so far. *)
Definition window (history : list float) : list float :=
  skipn (length history - capacity) history.

Definition newest (buffer : list float) : float := List.last buffer nan.
Definition previous (buffer : list float) : float :=
  List.last (removelast buffer) nan.
Definition mean (buffer : list float) : float :=
  PrimFloat.div (JS.sum buffer) (JS.flength buffer).

(** The firing rule on a full buffer. *)
Definition fires (sensitivity : float) (buffer : list float)
    (lastEvent now : Z) : bool :=
  JS.gt (newest buffer) (previous buffer)
  && JS.gt (newest buffer) (PrimFloat.add (mean buffer) sensitivity)
  && (300 <? now - lastEvent).

(** The readings of a sequence on which an event fires: never before
    [capacity] metrics have been seen, then by the rule. *)
Fixpoint events (sensitivity : float) (history : list float)
    (lastEvent : Z) (rs : list Reading) : list bool :=
  match rs with
  | [] => []
  | (now, (x, y, z)) :: rest =>
      let history1 := history ++ [JS.Math_abs z] in
      let f := Nat.leb capacity (length history1)
               && fires sensitivity (window history1) lastEvent now in
      f :: events sensitivity history1 (if f then now else lastEvent) rest
  end.

Definition bump (f : bool) : Z := if f then 1 else 0.

Lemma length_window history :
  length (window history) = Nat.min (length history) capacity.
Proof. unfold window. rewrite length_skipn. lia. Qed.

(** Pushing and shifting keeps the buffer equal to the window. *)
Lemma window_push history v :
  window (history ++ [v])
  = (let pushed := window history ++ [v] in
     if Nat.ltb bufferSize (length pushed) then tl pushed else pushed).
Proof.
  cbv zeta. rewrite length_app, length_window. cbn [length].
  unfold window, capacity, bufferSize. rewrite length_app. cbn [length].
  destruct (Nat.ltb_spec 20 (Nat.min (length history) 20 + 1)) as [H|H].
  - assert (E : (length history + 1 - 20 = S (length history - 20))%nat) by lia.
    rewrite E. rewrite <- (drop_app_le history [v]) by lia.
    generalize (length history - 20)%nat as k.
    generalize (history ++ [v]) as l. clear.
    intros l k. revert l. induction k as [|k IH]; intros [|a l]; cbn; auto.
  - assert (E : (length history + 1 - 20 = 0)%nat) by lia.
    assert (E' : (length history - 20 = 0)%nat) by lia.
    rewrite E, E'. reflexivity.
Qed.

Lemma nth_newest (l : list float) :
  nth (length l - 1) l nan = newest l.
Proof.
  unfold newest. destruct l as [|a l]; [reflexivity|].
  rewrite (app_removelast_last nan (l := a :: l)) at 1 2 by discriminate.
  rewrite length_app, app_nth2; cbn [length]; [|lia].
  replace (_ - _)%nat with 0%nat by lia. reflexivity.
Qed.

Lemma nth_previous (l : list float) :
  (2 <= length l)%nat -> nth (length l - 2) l nan = previous l.
Proof.
  intros H. unfold previous.
  assert (Hl : l <> []) by (destruct l; cbn in H; [lia|discriminate]).
  rewrite (app_removelast_last nan Hl) at 1 2.
  set (r := removelast l).
  assert (Hr : (1 <= length r)%nat).
  { subst r. rewrite (app_removelast_last nan Hl), length_app in H.
    cbn in H. lia. }
  rewrite length_app, app_nth1; cbn [length]; [|lia].
  replace (length r + 1 - 2)%nat with (length r - 1)%nat by lia.
  apply nth_newest.
Qed.

(** One call of the code against the rule, the buffer being the window of
    some history. *)
Lemma detect_window history h now x y z :
  stepBuffer h = window history ->
  let history1 := history ++ [JS.Math_abs z] in
  let f := Nat.leb capacity (length history1)
           && fires (stepThreshold h) (window history1) (lastStepTime h) now in
  detectStepFromAcceleration now x y z h
  = (f, mk (window history1) (if f then now else lastStepTime h)
           (stepThreshold h) (stepCount h + bump f)).
Proof.
  intros Hb. cbv zeta. unfold detectStepFromAcceleration. cbv zeta.
  rewrite Hb, <- window_push.
  set (buf := window (history ++ [JS.Math_abs z])).
  assert (Hlen : length buf = Nat.min (length (history ++ [JS.Math_abs z])) capacity)
    by apply length_window.
  unfold bufferSize, capacity in *.
  destruct (Nat.ltb_spec (length buf) 20) as [H|H].
  - destruct (Nat.leb_spec 20 (length (history ++ [JS.Math_abs z]))) as [H'|H'];
      [lia|]. cbn. rewrite Z.add_0_r. reflexivity.
  - destruct (Nat.leb_spec 20 (length (history ++ [JS.Math_abs z]))) as [H'|H'];
      [|lia]. cbn [andb].
    rewrite nth_newest, nth_previous by lia.
    unfold fires, mean.
    destruct (JS.gt (newest buf) (previous buf)
              && JS.gt (newest buf)
                   (PrimFloat.add (PrimFloat.div (JS.sum buf) (JS.flength buf))
                                  (stepThreshold h))
              && (300 <? now - lastStepTime h)); cbn.
    + reflexivity.
    + rewrite Z.add_0_r. reflexivity.
Qed.

Lemma feed_window rs : forall history h,
  stepBuffer h = window history ->
  fst (feed rs h) = events (stepThreshold h) history (lastStepTime h) rs
  /\ stepCount (snd (feed rs h))
     = stepCount h
       + fold_right Z.add 0
           (List.map bump (events (stepThreshold h) history (lastStepTime h) rs))
  /\ stepBuffer (snd (feed rs h))
     = window (history ++ List.map (fun r : Reading => JS.Math_abs (snd (snd r))) rs).
Proof.
  induction rs as [|[now [[x y] z]] rest IH]; intros history h Hb.
  - cbn. rewrite app_nil_r. repeat split; [lia|exact Hb].
  - cbn [feed events List.map fold_right].
    rewrite (detect_window history h now x y z Hb). cbv zeta.
    set (history1 := history ++ [JS.Math_abs z]).
    set (f := Nat.leb capacity (length history1)
              && fires (stepThreshold h) (window history1) (lastStepTime h) now).
    set (h1 := mk _ _ _ _).
    destruct (IH history1 h1 eq_refl) as (IH1 & IH2 & IH3).
    destruct (feed rest h1) as [flags h2]. cbn [fst snd] in *.
    subst h1. cbn [stepThreshold lastStepTime stepCount] in *.
    rewrite IH1, IH2, IH3. subst history1. cbn [snd].
    rewrite <- app_assoc. repeat split. lia.
Qed.

Lemma window_short history :
  (length history <= capacity)%nat -> window history = history.
Proof.
  intros H. unfold window.
  replace (length history - capacity)%nat with 0%nat by lia. reflexivity.
Qed.

(** Nothing fires while fewer than [capacity] metrics have been seen. *)
Lemma events_filling sensitivity rs : forall history lastEvent,
  (length history + length rs < capacity)%nat ->
  events sensitivity history lastEvent rs = repeat false (length rs).
Proof.
  induction rs as [|[now [[x y] z]] rest IH]; intros history lastEvent H;
    [reflexivity|].
  cbn [events length repeat] in *.
  assert (E : Nat.leb capacity (length (history ++ [JS.Math_abs z])) = false).
  { apply Nat.leb_gt. rewrite length_app. cbn. lia. }
  rewrite E. cbn [andb]. f_equal. apply IH. rewrite length_app. cbn. lia.
Qed.

(** C2. Fed any sequence of readings from a state whose buffer holds at most
    20 values, [detectStepFromAcceleration] returns [true] on a reading
    exactly when 20 metrics have been buffered and the newest buffered value
    is strictly greater than the previous one, strictly greater than the
    buffer's mean plus the threshold, and more than 300 ms has elapsed since
    the last accepted event; the count moves by 1 on each [true]; the buffer
    is the last 20 metrics; and every call made while the buffer is still
    short of 20 returns [false]. *)
Theorem detectStepFromAcceleration_fires_on_windowed_peaks :
  forall (h : t) (rs : list Reading),
    (length (stepBuffer h) <= bufferSize)%nat ->
    let fired := events (stepThreshold h) (stepBuffer h) (lastStepTime h) rs in
    bufferSize = 20%nat
    /\ fst (feed rs h) = fired
    /\ stepCount (snd (feed rs h))
       = stepCount h + fold_right Z.add 0 (List.map bump fired)
    /\ stepBuffer (snd (feed rs h))
       = window (stepBuffer h
                 ++ List.map (fun r : Reading => JS.Math_abs (snd (snd r))) rs)
    /\ ((length (stepBuffer h) + length rs < bufferSize)%nat ->
        fst (feed rs h) = repeat false (length rs)).
Proof.
  intros h rs Hlen fired.
  destruct (feed_window rs (stepBuffer h) h) as (H1 & H2 & H3).
  { symmetry. apply window_short. exact Hlen. }
  split; [reflexivity|]. split; [exact H1|]. split; [exact H2|].
  split; [exact H3|].
  intros Hshort. rewrite H1. apply events_filling. exact Hshort.
Qed.

End Windowed.

Definition steadyThenPeak : list IOSStepCounterHelper.Reading :=
  List.map (fun i => (1000 + 100 * Z.of_nat i, (0%float, 0%float, 1.0%float))) (seq 0 19)
  ++ [(2900, (0%float, 0%float, (-2.0)%float))].

Lemma detectStepFromAcceleration_examples :
  fst (IOSStepCounterHelper.feed steadyThenPeak IOSStepCounterHelper.new)
  = repeat false 19 ++ [true]
  /\ fst (IOSStepCounterHelper.feed (firstn 19 steadyThenPeak) IOSStepCounterHelper.new)
     = repeat false 19.
Proof.
  split.
  - destruct (Windowed.detectStepFromAcceleration_fires_on_windowed_peaks
                IOSStepCounterHelper.new steadyThenPeak) as (_ & Flags & _).
    + cbn. lia.
    + rewrite Flags. vm_compute. reflexivity.
  - destruct (Windowed.detectStepFromAcceleration_fires_on_windowed_peaks
                IOSStepCounterHelper.new (firstn 19 steadyThenPeak))
      as (_ & _ & _ & _ & Filling).
    + cbn. lia.
    + apply Filling. vm_compute. lia.
Defined.

(** * Startup: what the constructor's load leaves *)

Module Startup.

Import StepCounterService.

Lemma construct_service os h store now :
  service (construct os h store now)
  = set_stepCount (match store !! dayOf now with
                   | Some stepData => steps stepData
                   | None => 0
                   end) fields.
Proof.
  unfold construct, loadTodaysSteps, exec, bind, gets, modify. cbn.
  destruct (store !! dayOf now); reflexivity.
Qed.

Lemma construct_helper os h store now :
  iosHelper (construct os h store now) = h
  /\ platform (construct os h store now) = os.
Proof.
  unfold construct, loadTodaysSteps, exec, bind, gets, modify. cbn.
  destruct (store !! dayOf now); split; reflexivity.
Qed.

Lemma getCurrentStepCount_eval w :
  eval getCurrentStepCount w
  = if is_ios (platform w)
    then IOSStepCounterHelper.stepCount (iosHelper w)
    else stepCount (service w).
Proof.
  unfold getCurrentStepCount, eval, bind, onIOS, gets. cbn.
  destruct (is_ios (platform w)); reflexivity.
Qed.

(** C3. After the constructor's load has found a record holding [P] for
    today, the service's own count is [P]; off iOS [getCurrentStepCount()]
    returns it (and [P = max(P, 0)] for a count [P >= 0]); on iOS
    [getCurrentStepCount()] returns the helper's counter, which the load
    never touches, so a fresh helper answers 0 whatever [P] is. *)
Theorem startup_count_by_platform :
  forall (os : Platform) (h : IOSStepCounterHelper.t)
         (store : gmap Z StepData) (now : Z) (record : StepData),
    store !! dayOf now = Some record ->
    let P := steps record in
    let w := construct os h store now in
    stepCount (service w) = P
    /\ (is_ios os = false ->
        eval getCurrentStepCount w = P
        /\ (0 <= P -> eval getCurrentStepCount w = Z.max P 0))
    /\ (os = ios ->
        eval getCurrentStepCount w = IOSStepCounterHelper.stepCount h).
Proof.
  intros os h store now record Hrec P w.
  pose proof (construct_service os h store now) as Hs.
  destruct (construct_helper os h store now) as [Hh Hp].
  rewrite Hrec in Hs. fold w in Hs, Hh, Hp.
  split; [rewrite Hs; reflexivity|]. split.
  - intros Hos. rewrite getCurrentStepCount_eval, Hp, Hos, Hs.
    split; [reflexivity|]. cbn. fold P. lia.
  - intros ->. rewrite getCurrentStepCount_eval, Hp, Hh. reflexivity.
Qed.

End Startup.

Definition storedToday (count : Z) : gmap Z StepData :=
  {[ dayOf 1700000000000 := mkStepData count (dayOf 1700000000000) 1699999999000 ]}.

Lemma startup_on_ios_forgets_500 :
  let onIOS := StepCounterService.construct ios IOSStepCounterHelper.new
                 (storedToday 500) 1700000000000 in
  let onAndroid := StepCounterService.construct android IOSStepCounterHelper.new
                     (storedToday 500) 1700000000000 in
  stepCount (service onIOS) = 500
  /\ eval StepCounterService.getCurrentStepCount onIOS = 0
  /\ eval StepCounterService.getCurrentStepCount onAndroid = 500.
Proof.
  cbv zeta.
  destruct (Startup.startup_count_by_platform ios IOSStepCounterHelper.new
              (storedToday 500) 1700000000000
              (mkStepData 500 (dayOf 1700000000000) 1699999999000))
    as (Own & _ & OnIOS); [apply lookup_singleton_eq|].
  destruct (Startup.startup_count_by_platform android IOSStepCounterHelper.new
              (storedToday 500) 1700000000000
              (mkStepData 500 (dayOf 1700000000000) 1699999999000))
    as (_ & Generic & _); [apply lookup_singleton_eq|].
  split; [exact Own|]. split; [exact (OnIOS eq_refl)|].
  destruct (Generic eq_refl) as [Same _]. exact Same.
Defined.

(** * Calibration and sensitivity *)

Module Stats.

(** The specification's statistics: arithmetic mean, population standard
    deviation, clamping to a range, vector magnitude. *)
Definition mean (xs : list float) : float :=
  PrimFloat.div (JS.sum xs) (JS.flength xs).

Definition populationStdDev (xs : list float) : float :=
  JS.Math_sqrt
    (PrimFloat.div
       (JS.sum (List.map (fun v => JS.Math_pow2 (PrimFloat.sub v (mean xs))) xs))
       (JS.flength xs)).

Definition clamp (lo hi v : float) : float :=
  JS.Math_max lo (JS.Math_min hi v).

Definition magnitude (x y z : float) : float :=
  JS.Math_sqrt (PrimFloat.add (PrimFloat.add (PrimFloat.mul x x) (PrimFloat.mul y y))
                              (PrimFloat.mul z z)).

Definition within (lo hi v : float) : Prop :=
  JS.le lo v = true /\ JS.le v hi = true.

Lemma fold_left_add_map {A} (f : A -> float) xs : forall acc,
  fold_left (fun a v => PrimFloat.add a (f v)) xs acc
  = fold_left PrimFloat.add (List.map f xs) acc.
Proof. induction xs as [|x xs IH]; intros acc; cbn; auto. Qed.

Lemma sum_map {A} (f : A -> float) xs :
  JS.sum (List.map f xs)
  = fold_left (fun a v => PrimFloat.add a (f v)) xs PrimFloat.zero.
Proof. unfold JS.sum. symmetry. apply fold_left_add_map. Qed.

Lemma Math_min_cases hi v :
  is_nan hi = false -> is_nan v = false ->
  let m := JS.Math_min hi v in
  is_nan m = false /\ PrimFloat.leb m hi = true /\ (m = hi \/ m = v).
Proof.
  intros Hhi Hv. cbv zeta. unfold JS.Math_min. rewrite Hhi, Hv. cbn [orb].
  destruct (PrimFloat.ltb hi v) eqn:E1.
  - repeat split; auto. apply leb_refl; assumption.
  - destruct (PrimFloat.ltb v hi) eqn:E2.
    + repeat split; auto. apply ltb_leb; assumption.
    + destruct (get_sign hi).
      * repeat split; auto. apply leb_refl; assumption.
      * repeat split; auto. apply not_ltb_leb; assumption.
Qed.

Lemma Math_max_cases lo m :
  is_nan lo = false -> is_nan m = false ->
  let r := JS.Math_max lo m in
  PrimFloat.leb lo r = true /\ (r = lo \/ r = m).
Proof.
  intros Hlo Hm. cbv zeta. unfold JS.Math_max. rewrite Hlo, Hm. cbn [orb].
  destruct (PrimFloat.ltb lo m) eqn:E1.
  - split; auto. apply ltb_leb; assumption.
  - destruct (PrimFloat.ltb m lo) eqn:E2.
    + split; auto. apply leb_refl; assumption.
    + destruct (get_sign lo).
      * split; auto. apply not_ltb_leb; assumption.
      * split; auto. apply leb_refl; assumption.
Qed.

(** A number that is not NaN is clamped into the range. *)
Lemma clamp_within lo hi v :
  is_nan lo = false -> is_nan hi = false -> JS.le lo hi = true ->
  is_nan v = false -> within lo hi (clamp lo hi v).
Proof.
  intros Hlo Hhi Hle Hv. unfold within, clamp, JS.le.
  destruct (Math_min_cases hi v Hhi Hv) as (Hm & Hmhi & _).
  destruct (Math_max_cases lo (JS.Math_min hi v) Hlo Hm) as (Hr & [E|E]).
  - split; [exact Hr|]. rewrite E. exact Hle.
  - split; [exact Hr|]. rewrite E. exact Hmhi.
Qed.

End Stats.

Module Calibration.

Import StepCounterService.

Lemma calibratedThreshold_stats xs :
  calibratedThreshold xs
  = Stats.clamp 0.8%float 2.0%float
      (PrimFloat.add (Stats.mean xs)
                     (PrimFloat.mul 1.5%float (Stats.populationStdDev xs))).
Proof.
  unfold calibratedThreshold, Stats.clamp, Stats.populationStdDev, Stats.mean.
  rewrite Stats.sum_map. reflexivity.
Qed.

(** The reading that completes the session. *)
Lemma calibrationListener_completes now x y z c w :
  calibrationSubscription c = true ->
  calibrationDuration < now - startTime c ->
  calibrationListener now x y z c w
  = (mkCalibration (samples c ++ [Stats.magnitude x y z]) (startTime c) false true,
     with_service (set_stepThreshold
        (calibratedThreshold (samples c ++ [Stats.magnitude x y z]))) w).
Proof.
  intros Hsub Hlate. unfold calibrationListener. rewrite Hsub. cbn [negb].
  apply Z.ltb_lt in Hlate. rewrite Hlate.
  fold (Stats.magnitude x y z).
  assert (E : Nat.ltb 0 (length (samples c ++ [Stats.magnitude x y z])) = true).
  { apply Nat.ltb_lt. rewrite length_app. cbn. lia. }
  rewrite E. reflexivity.
Qed.

(** A reading before the end of the session only extends the capture. *)
Lemma calibrationListener_sampling now x y z c w :
  calibrationSubscription c = true ->
  now - startTime c <= calibrationDuration ->
  calibrationListener now x y z c w
  = (mkCalibration (samples c ++ [Stats.magnitude x y z]) (startTime c) true false, w).
Proof.
  intros Hsub Hearly. unfold calibrationListener. rewrite Hsub. cbn [negb].
  apply Z.ltb_ge in Hearly. rewrite Hearly. reflexivity.
Qed.

Lemma calibrate_sampling rs : forall c w,
  calibrationSubscription c = true ->
  Forall (fun r : IOSStepCounterHelper.Reading =>
            fst r - startTime c <= calibrationDuration) rs ->
  exec (calibrate rs c) w = w.
Proof.
  induction rs as [|[now [[x y] z]] rest IH]; intros c w Hsub H; [reflexivity|].
  inversion H as [|? ? Hr Hrest]; subst. cbn in Hr.
  cbn [calibrate]. unfold exec, bind in *.
  rewrite (calibrationListener_sampling now x y z c w Hsub Hr).
  apply IH; [reflexivity|exact Hrest].
Qed.

(** C4 (as the code has it). When a calibration session completes, the
    generic path sets the threshold to the mean of the captured magnitudes
    plus 1.5 times their population standard deviation, clamped to
    [0.8, 2.0]; [calibrateForUser] with at least 10 samples sets the
    helper's threshold to 1.5 times the population standard deviation,
    clamped to [0.2, 0.8], without adding the mean. *)
Theorem calibration_thresholds :
  forall (w : World) (c : Calibration) (now : Z) (x y z : float)
         (h : IOSStepCounterHelper.t) (xs : list float),
    calibrationSubscription c = true ->
    calibrationDuration < now - startTime c ->
    (10 <= length xs)%nat ->
    let captured := samples c ++ [Stats.magnitude x y z] in
    let done := calibrationListener now x y z c w in
    samples (fst done) = captured
    /\ resolved (fst done) = true
    /\ stepThreshold (service (snd done))
       = Stats.clamp 0.8%float 2.0%float
           (PrimFloat.add (Stats.mean captured)
              (PrimFloat.mul 1.5%float (Stats.populationStdDev captured)))
    /\ IOSStepCounterHelper.stepThreshold (IOSStepCounterHelper.calibrateForUser xs h)
       = Stats.clamp 0.2%float 0.8%float
           (PrimFloat.mul (Stats.populationStdDev xs) 1.5%float).
Proof.
  intros w c now x y z h xs Hsub Hlate Hlen. cbv zeta.
  rewrite (calibrationListener_completes now x y z c w Hsub Hlate).
  cbn [fst snd samples resolved].
  split; [reflexivity|]. split; [reflexivity|]. split.
  - cbn. apply calibratedThreshold_stats.
  - unfold IOSStepCounterHelper.calibrateForUser.
    assert (E : Nat.ltb (length xs) 10 = false) by (apply Nat.ltb_ge; lia).
    rewrite E. reflexivity.
Qed.

(** C5 (as the code has it). [calibrateForUser] called with fewer than 10
    samples returns with the helper untouched; the generic session changes
    nothing while it is still sampling, and has no minimum beyond the one
    reading that completes it. *)
Theorem calibration_without_enough_data :
  forall (xs : list float) (h : IOSStepCounterHelper.t)
         (rs : list IOSStepCounterHelper.Reading) (c : Calibration) (w : World),
    (length xs < 10)%nat ->
    calibrationSubscription c = true ->
    Forall (fun r : IOSStepCounterHelper.Reading =>
              fst r - startTime c <= calibrationDuration) rs ->
    IOSStepCounterHelper.calibrateForUser xs h = h
    /\ exec (calibrate rs c) w = w.
Proof.
  intros xs h rs c w Hlen Hsub Hrs. split.
  - unfold IOSStepCounterHelper.calibrateForUser.
    assert (E : Nat.ltb (length xs) 10 = true) by (apply Nat.ltb_lt; lia).
    rewrite E. reflexivity.
  - apply calibrate_sampling; assumption.
Qed.

(** C6 (as the code has it). [setStepThreshold] stores the value clamped to
    [0.5, 3.0] and the helper's [setThreshold] stores it clamped to
    [0.1, 1.0]; for a value that is a number (not NaN) the stored threshold
    lies in that range. *)
Theorem thresholds_are_clamped :
  forall (v : float) (w : World) (h : IOSStepCounterHelper.t),
    stepThreshold (service (exec (setStepThreshold v) w))
    = Stats.clamp 0.5%float 3.0%float v
    /\ IOSStepCounterHelper.stepThreshold (IOSStepCounterHelper.setThreshold v h)
       = Stats.clamp 0.1%float 1.0%float v
    /\ (is_nan v = false ->
        Stats.within 0.5%float 3.0%float
          (stepThreshold (service (exec (setStepThreshold v) w)))
        /\ Stats.within 0.1%float 1.0%float
             (IOSStepCounterHelper.stepThreshold
                (IOSStepCounterHelper.setThreshold v h))).
Proof.
  intros v w h. split; [reflexivity|]. split; [reflexivity|].
  intros Hv. split.
  - apply (Stats.clamp_within 0.5%float 3.0%float v); auto.
  - apply (Stats.clamp_within 0.1%float 1.0%float v); auto.
Qed.

End Calibration.

Definition freshAndroid : World :=
  StepCounterService.construct android IOSStepCounterHelper.new ∅ 0.

Lemma float_neq (a b pivot : float) :
  PrimFloat.ltb a pivot <> PrimFloat.ltb b pivot -> a <> b.
Proof. intros H E. apply H. rewrite E. reflexivity. Qed.

(** On ten samples of 1.0 the deviation is 0: [calibrateForUser] stores 0.2,
    where the mean plus 1.5 deviations, clamped to [0.2, 0.8], is 0.8. *)
Lemma calibrateForUser_leaves_out_the_mean :
  let xs := repeat 1.0%float 10 in
  let stored :=
    IOSStepCounterHelper.stepThreshold
      (IOSStepCounterHelper.calibrateForUser xs IOSStepCounterHelper.new) in
  let stated :=
    Stats.clamp 0.2%float 0.8%float
      (PrimFloat.add (Stats.mean xs)
                     (PrimFloat.mul 1.5%float (Stats.populationStdDev xs))) in
  stored = 0.2%float /\ stated = 0.8%float /\ stored <> stated.
Proof.
  cbv zeta. split; [vm_compute; reflexivity|]. split; [vm_compute; reflexivity|].
  apply (float_neq _ _ 0.5%float). vm_compute. discriminate.
Qed.

Lemma calibration_thresholds_example :
  stepThreshold (service (snd (StepCounterService.calibrationListener 30001
      0%float 0%float 3.0%float
      (StepCounterService.calibrateStepDetection 0) freshAndroid))) = 2.0%float
  /\ IOSStepCounterHelper.stepThreshold
       (IOSStepCounterHelper.calibrateForUser
          (repeat 1.0%float 5 ++ repeat 1.5%float 5) IOSStepCounterHelper.new)
     = 0.375%float.
Proof.
  destruct (Calibration.calibration_thresholds freshAndroid
              (StepCounterService.calibrateStepDetection 0) 30001
              0%float 0%float 3.0%float IOSStepCounterHelper.new
              (repeat 1.0%float 5 ++ repeat 1.5%float 5))
    as (_ & _ & Generic & Helper).
  - reflexivity.
  - reflexivity.
  - cbn. lia.
  - split.
    + rewrite Generic. vm_compute. reflexivity.
    + rewrite Helper. vm_compute. reflexivity.
Defined.

(** A generic session whose only reading arrives after the 30 s have elapsed
    captures one sample and still replaces the threshold. *)
Lemma one_late_reading_recalibrates :
  let run := StepCounterService.calibrate [(30001, (0%float, 0%float, 3.0%float))]
               (StepCounterService.calibrateStepDetection 0) freshAndroid in
  length (StepCounterService.samples (fst run)) = 1%nat
  /\ StepCounterService.resolved (fst run) = true
  /\ stepThreshold (service (snd run)) <> stepThreshold (service freshAndroid).
Proof.
  cbv zeta. split; [reflexivity|]. split; [reflexivity|].
  apply (float_neq _ _ 1.5%float). vm_compute. discriminate.
Qed.

Lemma calibration_without_enough_data_example :
  IOSStepCounterHelper.calibrateForUser
    (repeat 1.0%float 9) IOSStepCounterHelper.new = IOSStepCounterHelper.new
  /\ exec (StepCounterService.calibrate
             [(50, (0%float, 0%float, 3.0%float)); (100, (0%float, 0%float, 3.0%float))]
             (StepCounterService.calibrateStepDetection 0)) freshAndroid
     = freshAndroid.
Proof.
  apply (Calibration.calibration_without_enough_data
           (repeat 1.0%float 9) IOSStepCounterHelper.new
           [(50, (0%float, 0%float, 3.0%float)); (100, (0%float, 0%float, 3.0%float))]
           (StepCounterService.calibrateStepDetection 0) freshAndroid).
  - cbn. lia.
  - reflexivity.
  - repeat (constructor; [vm_compute; discriminate|]). constructor.
Defined.

(** 2.0 is stored as it is by [setStepThreshold], not as 1.0; 0.9 is stored
    as it is by the helper's [setThreshold], not as 0.8. *)
Lemma thresholds_not_clamped_to_the_stated_ranges :
  stepThreshold (service (exec (StepCounterService.setStepThreshold 2.0%float) freshAndroid))
  <> Stats.clamp 0.1%float 1.0%float 2.0%float
  /\ IOSStepCounterHelper.stepThreshold
       (IOSStepCounterHelper.setThreshold 0.9%float IOSStepCounterHelper.new)
     <> Stats.clamp 0.2%float 0.8%float 0.9%float.
Proof.
  split.
  - apply (float_neq _ _ 1.5%float). vm_compute. discriminate.
  - apply (float_neq _ _ 0.85%float). vm_compute. discriminate.
Qed.

Lemma thresholds_are_clamped_example :
  Stats.within 0.5%float 3.0%float
    (stepThreshold (service (exec (StepCounterService.setStepThreshold 5.0%float) freshAndroid)))
  /\ Stats.within 0.1%float 1.0%float
       (IOSStepCounterHelper.stepThreshold
          (IOSStepCounterHelper.setThreshold 5.0%float IOSStepCounterHelper.new)).
Proof.
  destruct (Calibration.thresholds_are_clamped 5.0%float freshAndroid
              IOSStepCounterHelper.new) as (_ & _ & InRange).
  apply InRange. reflexivity.
Defined.

(** * The history reader *)

Module History.

Import StepCounterService.

(** The entry for a day: the stored record, or zeros. *)
Definition entryFor (store : gmap Z StepData) (day : Z) : StepData :=
  match store !! day with
  | Some stored => stored
  | None => mkStepData 0 day 0
  end.

Lemma historyLoop_map today store n : forall i history,
  historyLoop today store i n history
  = history ++ List.map (fun j => entryFor store (today - (i + Z.of_nat j))) (seq 0 n).
Proof.
  induction n as [|n IH]; intros i history.
  - cbn. rewrite app_nil_r. reflexivity.
  - cbn [historyLoop seq List.map]. rewrite IH, <- app_assoc. cbn [app].
    f_equal. f_equal.
    + unfold entryFor. replace (today - (i + Z.of_nat 0)) with (today - i) by lia.
      reflexivity.
    + rewrite <- seq_shift, List.map_map. apply List.map_ext. intros j.
      f_equal. lia.
Qed.

Lemma getStepHistory_eval now days w :
  getStepHistory now days w
  = (rev (List.map (fun j => entryFor (storage w) (dayOf now - Z.of_nat j))
                   (seq 0 (Z.to_nat days))), w).
Proof.
  unfold getStepHistory, bind, gets, ret. rewrite historyLoop_map. cbn [app].
  reflexivity.
Qed.

(** In a zone whose offset never changes: for every [days >= 1] and every
    store, [getStepHistory(days)] returns exactly [days] entries, oldest
    first: entry [k] is the one for the date [days - 1 - k] days before
    today (the last entry is today's), being the stored record when there is
    one and [{steps: 0, date, lastUpdate: 0}] when there is none; the call
    returns normally and changes nothing. *)
Theorem getStepHistory_trailing_days :
  forall (w : World) (now days : Z),
    1 <= days ->
    let history := eval (getStepHistory now days) w in
    Z.of_nat (length history) = days
    /\ (forall k : nat, Z.of_nat k < days ->
        let day := dayOf now - (days - 1 - Z.of_nat k) in
        nth_error history k = Some (entryFor (storage w) day)
        /\ (storage w !! day = None ->
            nth_error history k = Some (mkStepData 0 day 0)))
    /\ exec (getStepHistory now days) w = w.
Proof.
  intros w now days Hdays history. subst history.
  unfold eval, exec. rewrite getStepHistory_eval. cbn [fst snd].
  set (n := Z.to_nat days).
  assert (Hn : Z.of_nat n = days) by (subst n; lia).
  split; [rewrite length_rev, length_map, length_seq; exact Hn|].
  split; [|reflexivity].
  intros k Hk. set (day := dayOf now - (days - 1 - Z.of_nat k)).
  assert (E : nth_error
                (rev (List.map (fun j => entryFor (storage w) (dayOf now - Z.of_nat j))
                               (seq 0 n))) k
              = Some (entryFor (storage w) day)).
  { rewrite <- map_rev.
    replace day with (dayOf now - Z.of_nat (n - 1 - k)) by (subst day; lia).
    apply (map_nth_error (fun j => entryFor (storage w) (dayOf now - Z.of_nat j))).
    replace (rev (seq 0 n)) with (List.map (fun i => (n - 1 - i)%nat) (seq 0 n)).
    - apply (map_nth_error (fun i => (n - 1 - i)%nat)).
      rewrite nth_error_nth' with (d := 0%nat) by (rewrite length_seq; lia).
      rewrite seq_nth by lia. reflexivity.
    - clear. induction n as [|n IH]; [reflexivity|].
      rewrite seq_S at 2. rewrite rev_app_distr. cbn [rev app seq List.map].
      f_equal; [f_equal; lia|].
      rewrite <- IH, <- seq_shift, List.map_map. apply List.map_ext_in.
      intros i Hi. apply in_seq in Hi. lia. }
  split; [exact E|].
  intros Hnone. rewrite E. unfold entryFor. rewrite Hnone. reflexivity.
Qed.

End History.

Definition sparseStore : World :=
  mkWorld android StepCounterService.fields IOSStepCounterHelper.new
    {[ 19675 := mkStepData 4200 19675 1699920005000;
       19673 := mkStepData 900 19673 1699747200000 ]} [].

Lemma getStepHistory_example :
  let history := eval (StepCounterService.getStepHistory 1699920005000 7) sparseStore in
  Z.of_nat (length history) = 7
  /\ nth_error history 6 = Some (mkStepData 4200 19675 1699920005000)
  /\ nth_error history 5 = Some (mkStepData 0 19674 0)
  /\ nth_error history 0 = Some (mkStepData 0 19669 0).
Proof.
  cbv zeta.
  destruct (History.getStepHistory_trailing_days sparseStore 1699920005000 7)
    as (Len & Entries & _); [lia|].
  split; [exact Len|]. split; [|split].
  - destruct (Entries 6%nat) as [Stored _]; [lia|]. exact Stored.
  - destruct (Entries 5%nat) as [_ Absent]; [lia|]. apply Absent. reflexivity.
  - destruct (Entries 0%nat) as [_ Absent]; [lia|]. apply Absent. reflexivity.
Defined.

(** * Calendar arithmetic in the device's time zone *)

Module Calendar.

(** The device's time zone as [Date] consults it, offsets being local time
    minus UTC in milliseconds: [offsetAtUTC t] is the offset in force at the
    instant [t], [offsetAtLocal l] the offset [Date] takes for the
    wall-clock value [l] (ECMAScript's [LocalTZA(t, true)] and
    [LocalTZA(l, false)]). *)
Record TimeZone := mkZone {
  offsetAtUTC : Z -> Z;
  offsetAtLocal : Z -> Z
}.

(** [date.setDate(date.getDate() + n)] on the time value [t]: the
    wall-clock value moves by [n] whole days, its time of day kept, and is
    read back as an instant. *)
Definition setDateBy (tz : TimeZone) (n : Z) (t : Z) : Z :=
  let local := t + offsetAtUTC tz t in
  let moved := local + n * msPerDay in
  moved - offsetAtLocal tz moved.

(** [date.toISOString().split('T')[0]]: the UTC date of an instant. *)
Definition isoDate (t : Z) : Z := dayOf t.

(** A zone whose offset never changes. *)
Definition fixedOffset (c : Z) : TimeZone := mkZone (fun _ => c) (fun _ => c).

(** America/New_York around the end of daylight saving time in 2023: UTC-4
    until 2023-11-05T06:00Z, when the clocks go from 02:00 back to 01:00,
    and UTC-5 after; a wall-clock value of the repeated hour is read with
    the earlier offset. *)
Definition newYork2023 : TimeZone :=
  mkZone (fun t => if t <? 1699164000000 then -14400000 else -18000000)
         (fun l => if l <? 1699149600000 then -14400000 else -18000000).

Lemma setDateBy_fixedOffset c n t :
  setDateBy (fixedOffset c) n t = t + n * msPerDay.
Proof. unfold setDateBy, fixedOffset. cbn. lia. Qed.

Lemma isoDate_days_back t i : isoDate (t + - i * msPerDay) = dayOf t - i.
Proof. unfold isoDate, dayOf, msPerDay. rewrite Z.div_add by lia. lia. Qed.

(** One local day forward in New York is at least 23 hours. *)
Lemma newYork2023_advances t : t + 82800000 <= setDateBy newYork2023 1 t.
Proof.
  unfold setDateBy, newYork2023, msPerDay. cbn [offsetAtUTC offsetAtLocal].
  destruct (Z.ltb_spec t 1699164000000);
    destruct (Z.ltb_spec (t + -14400000 + 1 * 86400000) 1699149600000);
    destruct (Z.ltb_spec (t + -18000000 + 1 * 86400000) 1699149600000); lia.
Qed.

End Calendar.

(** * The history reader in a time zone *)

Module ZonedHistory.

Import StepCounterService Calendar.

(** What [await AsyncStorage.getItem(key)], [if (stored)] and
    [JSON.parse(stored)] come to: nothing stored, a stored record, a stored
    text that is not JSON, or a read that is rejected. *)
Inductive Read :=
  | Absent
  | Parsed (stored : StepData)
  | Unparsable
  | Rejected.

(** The [for] loop of [getStepHistory] inside its [try]: [n] iterations from
    index [i]; a failed read or parse leaves the loop for the [catch], with
    the entries collected so far. *)
Fixpoint historyLoopIn (tz : TimeZone) (getItem : Z -> Read) (now : Z)
    (i : Z) (n : nat) (history : list StepData) : list StepData :=
  match n with
  | O => history
  | S n' =>
      let date := setDateBy tz (- i) now in
      let dateStr := isoDate date in
      match getItem dateStr with
      | Parsed stored =>
          historyLoopIn tz getItem now (i + 1) n' (history ++ [stored])
      | Absent =>
          historyLoopIn tz getItem now (i + 1) n'
            (history ++ [mkStepData 0 dateStr 0])
      | Unparsable | Rejected => history
      end
  end.

(** [getStepHistory(days)] at the instant [now] in the zone [tz]. *)
Definition getStepHistoryIn (tz : TimeZone) (getItem : Z -> Read)
    (now : Z) (days : Z) : list StepData :=
  rev (historyLoopIn tz getItem now 0 (Z.to_nat days) []).

(** Reads of a store that holds what [saveTodaysSteps] wrote. *)
Definition readStorage (store : gmap Z StepData) (dateStr : Z) : Read :=
  match store !! dateStr with
  | Some stored => Parsed stored
  | None => Absent
  end.

Lemma historyLoopIn_map tz store now n : forall i history,
  historyLoopIn tz (readStorage store) now i n history
  = history
    ++ List.map (fun j => History.entryFor store
                            (isoDate (setDateBy tz (- (i + Z.of_nat j)) now)))
                (seq 0 n).
Proof.
  induction n as [|n IH]; intros i history.
  - cbn. rewrite app_nil_r. reflexivity.
  - cbn [historyLoopIn seq List.map]. cbv zeta.
    replace (i + Z.of_nat 0) with i by lia.
    assert (Tail : List.map (fun j => History.entryFor store
                     (isoDate (setDateBy tz (- (i + Z.of_nat j)) now))) (seq 1 n)
                   = List.map (fun j => History.entryFor store
                       (isoDate (setDateBy tz (- (i + 1 + Z.of_nat j)) now)))
                       (seq 0 n)).
    { rewrite <- seq_shift, List.map_map. apply List.map_ext. intros j.
      do 3 f_equal. lia. }
    rewrite Tail. unfold readStorage, History.entryFor.
    destruct (store !! isoDate (setDateBy tz (- i) now)) as [stored|];
      rewrite IH, <- app_assoc; reflexivity.
Qed.

(** With reads that succeed, in any zone: one entry per index, entry [j]
    from the end being for the UTC date of the instant [j] local days
    back. *)
Lemma getStepHistoryIn_entries tz store now days :
  getStepHistoryIn tz (readStorage store) now days
  = rev (List.map (fun j => History.entryFor store
                              (isoDate (setDateBy tz (- Z.of_nat j) now)))
                  (seq 0 (Z.to_nat days))).
Proof.
  unfold getStepHistoryIn. rewrite historyLoopIn_map. cbn [app].
  f_equal.
Qed.

(** In a zone whose offset never changes, and with reads that succeed, the
    reader is [StepCounterService.getStepHistory]. *)
Lemma getStepHistoryIn_fixedOffset c w now days :
  getStepHistoryIn (fixedOffset c) (readStorage (storage w)) now days
  = eval (getStepHistory now days) w.
Proof.
  rewrite getStepHistoryIn_entries. unfold eval.
  rewrite History.getStepHistory_eval. cbn [fst]. f_equal.
  apply List.map_ext. intros j. f_equal.
  rewrite setDateBy_fixedOffset. apply isoDate_days_back.
Qed.

(** A read that fails ends the loop: when the first one does, the history
    is empty, whatever [days] is. *)
Lemma getStepHistoryIn_first_read_fails tz getItem now days :
  getItem (isoDate (setDateBy tz 0 now)) = Rejected
  \/ getItem (isoDate (setDateBy tz 0 now)) = Unparsable ->
  getStepHistoryIn tz getItem now days = [].
Proof.
  intros H. unfold getStepHistoryIn.
  destruct (Z.to_nat days) as [|n]; [reflexivity|].
  cbn [historyLoopIn]. cbv zeta. change (- 0) with 0.
  destruct H as [-> | ->]; reflexivity.
Qed.

(** C7. In New York at 2023-11-06T00:30Z (19:30 on the 5th, the day the
    clocks went back), with records stored for the 5th (4200 steps) and the
    6th (100 steps), [getStepHistory(3)] returns entries for the 3rd, the
    4th and the 6th: three entries, oldest first, but not one per trailing
    date. The 5th is skipped, its stored record is not returned, and the
    3rd, which is not among the three trailing dates, is zero-filled. In a
    zone without such a change the same call returns the 4th, the 5th and
    the 6th. *)
Theorem getStepHistory_skips_a_date_when_clocks_change :
  let now := 1699230600000 in
  let yesterday := mkStepData 4200 19666 1699200000000 in
  let today := mkStepData 100 19667 1699230000000 in
  let store : gmap Z StepData := {[ 19666 := yesterday; 19667 := today ]} in
  let history := getStepHistoryIn newYork2023 (readStorage store) now 3 in
  dayOf now = 19667
  /\ history = [mkStepData 0 19664 0; mkStepData 0 19665 0; today]
  /\ ~ In yesterday history
  /\ List.map date history <> [dayOf now - 2; dayOf now - 1; dayOf now]
  /\ getStepHistoryIn (fixedOffset (-18000000)) (readStorage store) now 3
     = [mkStepData 0 19665 0; yesterday; today].
Proof.
  cbv zeta.
  assert (E : getStepHistoryIn newYork2023
                (readStorage {[ 19666 := mkStepData 4200 19666 1699200000000;
                                19667 := mkStepData 100 19667 1699230000000 ]})
                1699230600000 3
              = [mkStepData 0 19664 0; mkStepData 0 19665 0;
                 mkStepData 100 19667 1699230000000])
    by (vm_compute; reflexivity).
  rewrite E.
  split; [reflexivity|]. split; [reflexivity|].
  split; [intros [H|[H|[H|[]]]]; discriminate H|].
  split; [vm_compute; discriminate|].
  vm_compute. reflexivity.
Qed.

End ZonedHistory.

(** * The health-app comparison and [syncWithHealthKit] *)

Module Reconciliation.

Import StepCounterService IOSHealthService.

(** The object [iosHealthService] of [ios-health-service.ts], as
    [StepCounterService] calls it. Class [IOSHealthService] declares
    [isAvailable] as a boolean field and declares no
    [getStepsFromHealthApp]: [this.iosHealthService.isAvailable()] calls a
    boolean and [this.iosHealthService.getStepsFromHealthApp()] calls
    [undefined], so each throws a [TypeError], whose text [notAFunction] is
    the engine's. *)
Definition iosHealthService (notAFunction : string) : HealthProvider :=
  mkProvider (Throws notAFunction) (Throws notAFunction).

(** The external count, when the platform has a provider and the provider
    returns one. *)
Definition externalCount (w : World) (p : HealthProvider) : option Z :=
  if is_ios (platform w) then
    match getStepsFromHealthApp p with
    | Returns (Some e) => Some e
    | _ => None
    end
  else None.

(** The specification's [|l - e| / max(l, e) * 100]. *)
Definition percentDiff (l e : Z) : float :=
  PrimFloat.mul (PrimFloat.div (JS.of_Z (Z.abs (l - e))) (JS.of_Z (Z.max l e)))
                100%float.

(** [e > l * 1.2]. *)
Definition meaningfullyHigher (l e : Z) : bool :=
  JS.gt (JS.of_Z e) (PrimFloat.mul (JS.of_Z l) 1.2%float).

(** What the two cited functions compute from a local count [l] and an
    external count [e], for a health service that answers
    [getStepsFromHealthApp()] (the declared one does not, see
    [iosHealthService]): [compareWithHealthApp] computes
    [|l - e| / max(l, e) * 100]; when no external count is available it
    reports no health-app count with accuracy [unknown] (or [error]) and
    [syncWithHealthKit] returns nothing; when the difference is at most 10
    it reports [similar] with the good-accuracy message; when it is above
    10, [syncWithHealthKit] returns the external data exactly when
    [e > l * 1.2], and otherwise keeps the local count while the
    comparison's recommendation carries both numbers and the calibration
    suggestion. *)
Theorem reconcile_outcomes :
  forall (w : World) (p : HealthProvider) (data : HealthData) (date : Z),
    let l := stepCount (service w) in
    let r := eval (compareWithHealthApp p) w in
    accelerometerSteps r = l
    /\ healthAppSteps r = externalCount w p
    /\ match externalCount w p with
       | None =>
           (accuracy r = "unknown" \/ accuracy r = "error")%string
           /\ syncWithHealthKit None l date = None
       | Some e =>
           percentageDiff l e = percentDiff l e
           /\ (JS.le (percentDiff l e) 10%float = true ->
               accuracy r = "similar"%string
               /\ recommendation r
                  = "Motion sensor and Health app data are similar. Good accuracy!"%string)
           /\ (JS.gt (percentDiff l e) 10%float = true ->
               hd_steps data = e ->
               (meaningfullyHigher l e = true ->
                syncWithHealthKit (Some data) l date = Some data)
               /\ (meaningfullyHigher l e = false ->
                   syncWithHealthKit (Some data) l date
                   = Some (mkHealthData l date "SihatAI App" 1.0%float)
                   /\ accuracy r = "different"%string
                   /\ recommendation r
                      = JS.template ["Motion sensors: "; JS.show l;
                                     ", Health app: "; JS.show e;
                                     ". Consider calibration."]%string))
       end.
Proof.
  intros [os s h st ups] p data date. cbv zeta.
  unfold externalCount, compareWithHealthApp, eval, bind, onIOS, gets, ret.
  cbn [platform service fst].
  destruct (is_ios os); cbn [negb fst].
  2: { repeat split. left. reflexivity. }
  destruct (getStepsFromHealthApp p) as [[e|]|err]; cbn [fst].
  2: { repeat split. left. reflexivity. }
  2: { repeat split. right. reflexivity. }
  change (percentageDiff (stepCount s) e) with (percentDiff (stepCount s) e).
  destruct (JS.le (percentDiff (stepCount s) e) 10%float) eqn:Hle;
    cbn [fst accelerometerSteps healthAppSteps accuracy recommendation];
    (split; [reflexivity|]); (split; [reflexivity|]); (split; [reflexivity|]).
  - split; [intros _; split; reflexivity|].
    intros Hgt. apply gt_not_le in Hgt. congruence.
  - split; [discriminate|].
    intros _ Hdata. unfold syncWithHealthKit, meaningfullyHigher.
    rewrite Hdata. split.
    + intros Hhigh. rewrite Hhigh. reflexivity.
    + intros Hlow. rewrite Hlow. repeat split.
Qed.

(** With both counts 0 the quotient is NaN, which is neither at most 10 nor
    above it: the comparison takes its [else] branch. *)
Lemma compare_of_two_zero_counts :
  is_nan (percentDiff 0 0) = true
  /\ JS.le (percentDiff 0 0) 10%float = false
  /\ JS.gt (percentDiff 0 0) 10%float = false
  /\ accuracy (eval (compareWithHealthApp (mkProvider (Returns true) (Returns (Some 0))))
                    (mkWorld ios fields IOSStepCounterHelper.new ∅ []))
     = "different"%string.
Proof. repeat split. Qed.

End Reconciliation.

Definition iosAt (count : Z) : World :=
  exec (StepCounterService.addSteps 1699920005000 count)
       (StepCounterService.construct ios IOSStepCounterHelper.new ∅ 1699920000000).

Definition healthAnswers (answer : option Z) : StepCounterService.HealthProvider :=
  StepCounterService.mkProvider (Returns true) (Returns answer).

Definition healthKit (count : Z) : IOSHealthService.HealthData :=
  IOSHealthService.mkHealthData count 19675 "iOS Health App (Mock)" 0.95%float.

(** C8. With the health service the repository declares, the comparison
    never reaches its arithmetic: on iOS the call of [getStepsFromHealthApp]
    throws and [compareWithHealthApp] returns accuracy [error], no health-app
    count and the message of the failure, whatever the local count is;
    elsewhere it returns [unknown]. It never reports [similar] or
    [different]: with 100 steps counted and 105 in the health app, which
    differ by less than 10 percent, the result is [error]. The
    synchronisation fails in the same way, at [isAvailable()], and changes
    nothing. *)
Theorem compareWithHealthApp_fails_before_comparing :
  forall (w : World) (notAFunction : string) (now : Z),
    let p := Reconciliation.iosHealthService notAFunction in
    let r := eval (StepCounterService.compareWithHealthApp p) w in
    StepCounterService.accelerometerSteps r = stepCount (service w)
    /\ StepCounterService.healthAppSteps r = None
    /\ StepCounterService.accuracy r
       = (if is_ios (platform w) then "error" else "unknown")%string
    /\ StepCounterService.recommendation r
       = (if is_ios (platform w)
          then JS.template ["Comparison failed: "; notAFunction]
          else "iOS Health comparison only available on iOS devices")%string
    /\ StepCounterService.accuracy r <> "similar"%string
    /\ StepCounterService.accuracy r <> "different"%string
    /\ StepCounterService.success
         (eval (StepCounterService.syncWithHealthApp now p) w) = false
    /\ exec (StepCounterService.syncWithHealthApp now p) w = w
    /\ JS.le (Reconciliation.percentDiff 100 105) 10%float = true
    /\ stepCount (service (iosAt 100)) = 100
    /\ StepCounterService.accuracy
         (eval (StepCounterService.compareWithHealthApp p) (iosAt 100))
       = "error"%string.
Proof.
  intros [os s h st ups] notAFunction now. cbv zeta.
  unfold StepCounterService.compareWithHealthApp,
    StepCounterService.syncWithHealthApp, Reconciliation.iosHealthService,
    eval, exec, bind, StepCounterService.onIOS, gets, ret.
  cbn [platform service fst snd StepCounterService.getStepsFromHealthApp
       StepCounterService.isAvailable].
  destruct (is_ios os);
    cbn [negb fst snd StepCounterService.accelerometerSteps
         StepCounterService.healthAppSteps StepCounterService.accuracy
         StepCounterService.recommendation StepCounterService.success];
    repeat split; discriminate.
Qed.

Lemma reconcile_examples :
  StepCounterService.accuracy
    (eval (StepCounterService.compareWithHealthApp (healthAnswers (Some 105))) (iosAt 100))
  = "similar"%string
  /\ IOSHealthService.syncWithHealthKit (Some (healthKit 140)) 100 19675
     = Some (healthKit 140)
  /\ StepCounterService.recommendation
       (eval (StepCounterService.compareWithHealthApp (healthAnswers (Some 100))) (iosAt 140))
     = "Motion sensors: 140, Health app: 100. Consider calibration."%string
  /\ StepCounterService.accuracy
       (eval (StepCounterService.compareWithHealthApp (healthAnswers None)) (iosAt 100))
     = "unknown"%string.
Proof.
  split; [|split; [|split]].
  - destruct (Reconciliation.reconcile_outcomes (iosAt 100) (healthAnswers (Some 105))
                (healthKit 105) 19675) as (_ & _ & Case).
    change (Reconciliation.externalCount (iosAt 100) (healthAnswers (Some 105)))
      with (Some 105) in Case.
    destruct Case as (_ & Similar & _). apply Similar. reflexivity.
  - destruct (Reconciliation.reconcile_outcomes (iosAt 100) (healthAnswers (Some 140))
                (healthKit 140) 19675) as (_ & _ & Case).
    change (Reconciliation.externalCount (iosAt 100) (healthAnswers (Some 140)))
      with (Some 140) in Case.
    destruct Case as (_ & _ & Different).
    destruct Different as [External _]; [reflexivity|reflexivity|].
    apply External. reflexivity.
  - destruct (Reconciliation.reconcile_outcomes (iosAt 140) (healthAnswers (Some 100))
                (healthKit 100) 19675) as (_ & _ & Case).
    change (Reconciliation.externalCount (iosAt 140) (healthAnswers (Some 100)))
      with (Some 100) in Case.
    destruct Case as (_ & _ & Different).
    destruct Different as [_ Local]; [reflexivity|reflexivity|].
    destruct Local as (_ & _ & Rationale); [reflexivity|].
    rewrite Rationale. reflexivity.
  - destruct (Reconciliation.reconcile_outcomes (iosAt 100) (healthAnswers None)
                (healthKit 0) 19675) as (_ & _ & Case).
    change (Reconciliation.externalCount (iosAt 100) (healthAnswers None))
      with (@None Z) in Case.
    destruct Case as ([Unknown|Error] & _); [exact Unknown|].
    vm_compute in Error. discriminate Error.
Defined.

(** * The daily count under the exposed operations *)

Module Ledger.

Import StepCounterService.

(** The operations a caller (or the accelerometer) can trigger. *)
Inductive Op :=
  | Sample (now : Z) (x y z : float)
  | AddSteps (now : Z) (n : Z)
  | Sync (now : Z) (p : HealthProvider)
  | Compare (p : HealthProvider)
  | History (now : Z) (days : Z)
  | SetThreshold (v : float)
  | Stop (now : Z)
  | Reset (now : Z).

Definition run (op : Op) : M unit :=
  match op with
  | Sample now x y z => onAccelerometer now x y z
  | AddSteps now n => addSteps now n
  | Sync now p => syncWithHealthApp now p ;; ret tt
  | Compare p => compareWithHealthApp p ;; ret tt
  | History now days => getStepHistory now days ;; ret tt
  | SetThreshold v => setStepThreshold v
  | Stop now => stopStepCounting now
  | Reset now => resetDailySteps now
  end.

Fixpoint runAll (ops : list Op) : M unit :=
  match ops with
  | [] => ret tt
  | op :: rest => run op ;; runAll rest
  end.

(** What [getCurrentStepCount()] would return. *)
Definition current (w : World) : Z := eval getCurrentStepCount w.


Lemma current_cases w :
  current w = if is_ios (platform w)
              then IOSStepCounterHelper.stepCount (iosHelper w)
              else stepCount (service w).
Proof. apply Startup.getCurrentStepCount_eval. Qed.

Lemma compare_pure p w : compareWithHealthApp p w = (eval (compareWithHealthApp p) w, w).
Proof.
  destruct w as [os s h st ups].
  unfold compareWithHealthApp, eval, bind, onIOS, gets, ret. cbn [platform service].
  destruct (is_ios os); cbn [negb]; [|reflexivity].
  destruct (getStepsFromHealthApp p) as [[e|]|err]; try reflexivity.
  destruct (JS.le (percentageDiff (stepCount s) e) 10%float); reflexivity.
Qed.


(** Unfolds the monadic plumbing and reduces the record projections that
    meet a constructor. *)
Ltac reduce_monad :=
  cbv beta iota zeta delta
    [exec eval notify saveTodaysSteps stopStepCounting when modify bind gets ret
     with_service with_helper with_storage fst snd
     platform service iosHelper storage updates
     set_stepCount set_lastMagnitude set_lastStepTime set_stepThreshold
     stepCount onStepCountUpdate negb].

Ltac split_ifs :=
  repeat (match goal with
          | |- context [if ?c then _ else _] => destruct c
          end; reduce_monad).

Lemma onAccelerometer_generic w now x y z :
  is_ios (platform w) = false ->
  onAccelerometer now x y z w = detectStep now (Stats.magnitude x y z) w.
Proof.
  intros H. unfold onAccelerometer, bind, onIOS, gets. rewrite H. reflexivity.
Qed.






(** C10. [compareWithHealthApp] changes nothing: after the call the whole
    state, and with it the service's count, [getCurrentStepCount()] and the
    persisted records, is what it was before, whatever the provider
    answers; [syncWithHealthKit] is a function of its arguments alone. *)
Theorem compareWithHealthApp_changes_nothing :
  forall (w : World) (p : HealthProvider),
    let w1 := exec (compareWithHealthApp p) w in
    w1 = w
    /\ stepCount (service w1) = stepCount (service w)
    /\ storage w1 = storage w
    /\ current w1 = current w.
Proof.
  intros w p. cbv zeta. unfold exec. rewrite compare_pure. cbn [snd].
  repeat split.
Qed.

End Ledger.



(** * Beyond the claims: persistence of the daily count *)

Module Persistence.

Import StepCounterService.

(** The operations that end with [saveTodaysSteps()], and the clock they
    read. *)
Definition writesAt (op : Ledger.Op) : option Z :=
  match op with
  | Ledger.AddSteps now _ | Ledger.Reset now | Ledger.Stop now => Some now
  | _ => None
  end.

(** The operations that only read, or only touch the sensitivity. *)
Definition readsOnly (op : Ledger.Op) : bool :=
  match op with
  | Ledger.Compare _ | Ledger.History _ _ | Ledger.SetThreshold _ => true
  | _ => false
  end.

Lemma run_writes op now w :
  writesAt op = Some now ->
  storage (exec (Ledger.run op) w)
  = <[dayOf now := mkStepData (stepCount (service (exec (Ledger.run op) w)))
                              (dayOf now) now]> (storage w).
Proof.
  destruct w as [os [c lm th lt gap cb] h st ups].
  destruct op as [t x y z|t n|t p|p|t days|v|t|t]; cbn [writesAt];
    intros E; inversion E; subst; cbn [Ledger.run].
  - unfold addSteps, onIOS. Ledger.reduce_monad.
    destruct (is_ios os); Ledger.reduce_monad; destruct cb; reflexivity.
  - reflexivity.
  - unfold resetDailySteps, onIOS. Ledger.reduce_monad.
    destruct (is_ios os); Ledger.reduce_monad; destruct cb; reflexivity.
Qed.

Lemma run_reads op w :
  readsOnly op = true -> storage (exec (Ledger.run op) w) = storage w.
Proof.
  destruct op as [t x y z|t n|t p|p|t days|v|t|t]; cbn [readsOnly];
    try discriminate; intros _; cbn [Ledger.run]; unfold exec, bind.
  - rewrite Ledger.compare_pure. reflexivity.
  - rewrite History.getStepHistory_eval. reflexivity.
  - reflexivity.
Qed.

(** X1. A manual addition, a reset and a stop write through: afterwards the
    record under today's key holds the service's count, today's date and the
    clock reading, and the records of every other day are what they were. A
    comparison, a history read and a change of sensitivity write nothing. *)
Theorem write_through_today_only :
  forall (w : World) (op : Ledger.Op) (now : Z),
    let w1 := exec (Ledger.run op) w in
    (writesAt op = Some now ->
     storage w1 !! dayOf now
     = Some (mkStepData (stepCount (service w1)) (dayOf now) now)
     /\ (forall day, day <> dayOf now -> storage w1 !! day = storage w !! day))
    /\ (readsOnly op = true -> storage w1 = storage w).
Proof.
  intros w op now w1. split.
  - intros Hop. subst w1. rewrite (run_writes op now w Hop). split.
    + apply lookup_insert_eq.
    + intros day Hday. apply lookup_insert_ne. congruence.
  - apply run_reads.
Qed.

Lemma construct_current os h store now :
  is_ios os = false ->
  eval getCurrentStepCount (construct os h store now)
  = match store !! dayOf now with
    | Some stepData => steps stepData
    | None => 0
    end.
Proof.
  intros Hos. rewrite Startup.getCurrentStepCount_eval.
  destruct (Startup.construct_helper os h store now) as [_ Hp].
  rewrite Hp, Hos, Startup.construct_service. reflexivity.
Qed.

(** X2. Off iOS a stop followed by a restart on the same day gives the count
    back: the new service answers the count the old one held. A restart on a
    day for which nothing is stored answers 0. *)
Theorem restart_restores_the_count :
  forall (w : World) (os : Platform) (h : IOSStepCounterHelper.t)
         (store : gmap Z StepData) (now later : Z),
    is_ios os = false ->
    (dayOf later = dayOf now ->
     eval getCurrentStepCount
       (construct os h (storage (exec (stopStepCounting now) w)) later)
     = stepCount (service w))
    /\ (store !! dayOf later = None ->
        eval getCurrentStepCount (construct os h store later) = 0).
Proof.
  intros w os h store now later Hos. split.
  - intros Hday. rewrite (construct_current _ _ _ _ Hos), Hday.
    change (stopStepCounting now) with (Ledger.run (Ledger.Stop now)).
    rewrite (run_writes (Ledger.Stop now) now w eq_refl), lookup_insert_eq.
    reflexivity.
  - intros Hnone. rewrite (construct_current _ _ _ _ Hos), Hnone. reflexivity.
Qed.

End Persistence.

Lemma write_through_example :
  let w1 := exec (StepCounterService.addSteps 1699920009000 12) sparseStore in
  storage w1 !! 19675 = Some (mkStepData 12 19675 1699920009000)
  /\ storage w1 !! 19673 = Some (mkStepData 900 19673 1699747200000)
  /\ storage (exec (StepCounterService.setStepThreshold 2.0%float) sparseStore)
     = storage sparseStore.
Proof.
  cbv zeta.
  destruct (Persistence.write_through_today_only sparseStore
              (Ledger.AddSteps 1699920009000 12) 1699920009000) as [Writes _].
  destruct (Writes eq_refl) as [Today Others].
  destruct (Persistence.write_through_today_only sparseStore
              (Ledger.SetThreshold 2.0%float) 0) as [_ Reads].
  split; [exact Today|]. split.
  - transitivity (storage sparseStore !! 19673); [|reflexivity].
    apply Others. vm_compute. discriminate.
  - exact (Reads eq_refl).
Defined.

Lemma restart_example :
  eval StepCounterService.getCurrentStepCount
    (StepCounterService.construct android IOSStepCounterHelper.new
       (storage (exec (StepCounterService.stopStepCounting 1699920009000)
                      (exec (StepCounterService.addSteps 1699920005000 37) freshAndroid)))
       1699930000000) = 37
  /\ eval StepCounterService.getCurrentStepCount
       (StepCounterService.construct android IOSStepCounterHelper.new
          (storage sparseStore) (1699920009000 + 86400000)) = 0.
Proof.
  destruct (Persistence.restart_restores_the_count
              (exec (StepCounterService.addSteps 1699920005000 37) freshAndroid)
              android IOSStepCounterHelper.new (storage sparseStore)
              1699920009000 1699930000000 eq_refl) as [Same _].
  destruct (Persistence.restart_restores_the_count
              freshAndroid android IOSStepCounterHelper.new (storage sparseStore)
              0 (1699920009000 + 86400000) eq_refl) as [_ NewDay].
  split; [exact (Same eq_refl)|exact (NewDay eq_refl)].
Defined.

(** * Beyond the claims: what a stream of samples does to the whole state *)

Module Streams.

Import StepCounterService.

(** One [detectStep] call, on every field. *)
Lemma detectStep_world w now metric :
  let s := service w in
  let f := Hysteresis.fires (stepThreshold s) (minStepInterval s)
                            (lastMagnitude s) (lastStepTime s) now metric in
  exec (detectStep now metric) w
  = mkWorld (platform w)
      (mkService (stepCount s + Hysteresis.bump f) metric (stepThreshold s)
                 (if f then now else lastStepTime s)
                 (minStepInterval s) (onStepCountUpdate s))
      (iosHelper w)
      (if f && (Z.rem (stepCount s + 1) 10 =? 0)
       then <[dayOf now := mkStepData (stepCount s + 1) (dayOf now) now]> (storage w)
       else storage w)
      (if f && onStepCountUpdate s then (stepCount s + 1) :: updates w
       else updates w).
Proof.
  destruct w as [os [c lm th lt gap cb] h st ups].
  unfold Hysteresis.fires, detectStep, exec, bind, gets, when, modify, notify,
    saveTodaysSteps, ret; cbn.
  unfold JS.gt, JS.le.
  destruct (PrimFloat.ltb th metric && PrimFloat.leb lm th && (gap <? now - lt));
    cbn.
  - destruct cb; cbn; destruct (Z.rem (c + 1) 10 =? 0); reflexivity.
  - rewrite Z.add_0_r. reflexivity.
Qed.

Lemma feed_cons now metric rest w :
  exec (Hysteresis.feed ((now, metric) :: rest)) w
  = exec (Hysteresis.feed rest) (exec (detectStep now metric) w).
Proof.
  cbn [Hysteresis.feed]. unfold exec, bind.
  destruct (detectStep now metric w) as [[] w1]. reflexivity.
Qed.

Lemma bump_range f : 0 <= Hysteresis.bump f <= 1.
Proof. destruct f; cbn; lia. Qed.

Lemma feed_never_lowers ms : forall w,
  stepCount (service w) <= stepCount (service (exec (Hysteresis.feed ms) w)).
Proof.
  induction ms as [|[now metric] rest IH]; intros w; [cbn; lia|].
  rewrite feed_cons. specialize (IH (exec (detectStep now metric) w)).
  rewrite detectStep_world in IH at 1. cbn [service stepCount] in IH.
  pose proof (bump_range (Hysteresis.fires (stepThreshold (service w))
    (minStepInterval (service w)) (lastMagnitude (service w))
    (lastStepTime (service w)) now metric)). lia.
Qed.

(** The lag invariant: the stored count is at most the count, and the count
    is below the next multiple of ten above the stored one. *)
Definition lagging (p c : Z) : Prop := p <= c < 10 * (p / 10) + 10.

Lemma lagging_step p c :
  lagging p c -> (Z.rem (c + 1) 10 =? 0) = false -> lagging p (c + 1).
Proof.
  unfold lagging. intros [H1 H2] Hrem. split; [lia|].
  destruct (Z.eq_dec (c + 1) (10 * (p / 10) + 10)) as [E|E]; [|lia].
  rewrite E in Hrem.
  replace (10 * (p / 10) + 10) with ((p / 10 + 1) * 10) in Hrem by lia.
  rewrite Z.rem_mul in Hrem by lia. discriminate.
Qed.

Lemma lagging_refl c : lagging c c.
Proof. unfold lagging. pose proof (Z.mod_pos_bound c 10). pose proof (Z.div_mod c 10). lia. Qed.

Lemma feed_lagging ms : forall w day p,
  Forall (fun m : Hysteresis.Metric => dayOf (fst m) = day) ms ->
  steps <$> (storage w !! day) = Some p ->
  lagging p (stepCount (service w)) ->
  exists p',
    steps <$> (storage (exec (Hysteresis.feed ms) w) !! day) = Some p'
    /\ lagging p' (stepCount (service (exec (Hysteresis.feed ms) w))).
Proof.
  induction ms as [|[now metric] rest IH]; intros w day p Hday Hp Hlag.
  - exists p. split; assumption.
  - inversion Hday as [|? ? Hnow Hrest]; subst. cbn [fst] in *.
    rewrite feed_cons. rewrite detectStep_world. cbv zeta.
    set (f := Hysteresis.fires _ _ _ _ _ _).
    destruct f; cbn [andb Hysteresis.bump].
    + destruct (Z.rem (stepCount (service w) + 1) 10 =? 0) eqn:Hrem.
      * eapply (IH _ (dayOf now) (stepCount (service w) + 1)); [exact Hrest| |].
        -- cbn [storage]. rewrite lookup_insert_eq. reflexivity.
        -- cbn [service stepCount]. apply lagging_refl.
      * eapply (IH _ (dayOf now) p); [exact Hrest|exact Hp|].
        cbn [service stepCount]. apply lagging_step; assumption.
    + eapply (IH _ (dayOf now) p); [exact Hrest|exact Hp|].
      cbn [service stepCount]. rewrite Z.add_0_r. exact Hlag.
Qed.

(** X3. Batched persistence loses fewer than ten steps: when today's record
    holds the current count (as after a stop, a manual addition or a reset)
    and any sequence of metrics of the same day is then fed to [detectStep],
    today's record holds a count [p] with [p <= stepCount < p + 10]. *)
Theorem stored_count_lags_by_less_than_ten :
  forall (w : World) (ms : list Hysteresis.Metric) (day : Z),
    Forall (fun m : Hysteresis.Metric => dayOf (fst m) = day) ms ->
    steps <$> (storage w !! day) = Some (stepCount (service w)) ->
    exists p,
      steps <$> (storage (exec (Hysteresis.feed ms) w) !! day) = Some p
      /\ p <= stepCount (service (exec (Hysteresis.feed ms) w)) < p + 10.
Proof.
  intros w ms day Hday Hp.
  destruct (feed_lagging ms w day _ Hday Hp (lagging_refl _)) as (p & Hs & Hl).
  exists p. split; [exact Hs|]. unfold lagging in Hl.
  pose proof (Z.mod_pos_bound p 10). pose proof (Z.div_mod p 10). lia.
Qed.

(** The counts a callback receives while the count goes from [c] up by
    [k]: newest first. *)
Definition received (c : Z) (k : nat) : list Z :=
  rev (List.map (fun i => c + Z.of_nat i) (seq 1 k)).

Lemma received_S c k : received c (S k) = received (c + 1) k ++ [c + 1].
Proof.
  unfold received. cbn [seq List.map rev].
  replace (c + Z.of_nat 1) with (c + 1) by lia. f_equal. f_equal.
  rewrite <- seq_shift, List.map_map. apply List.map_ext. intros i. lia.
Qed.

Lemma feed_updates ms : forall w,
  onStepCountUpdate (service w) = true ->
  updates (exec (Hysteresis.feed ms) w)
  = received (stepCount (service w))
      (Z.to_nat (stepCount (service (exec (Hysteresis.feed ms) w))
                 - stepCount (service w)))
    ++ updates w.
Proof.
  induction ms as [|[now metric] rest IH]; intros w Hcb.
  - cbn. rewrite Z.sub_diag. reflexivity.
  - rewrite feed_cons.
    pose proof (feed_never_lowers rest (exec (detectStep now metric) w)) as Hup.
    rewrite IH by (rewrite detectStep_world; exact Hcb).
    set (final := stepCount (service (exec (Hysteresis.feed rest)
                                           (exec (detectStep now metric) w)))) in *.
    rewrite detectStep_world in Hup |- *. cbv zeta in *.
    cbn [service stepCount updates] in *. rewrite Hcb, andb_true_r.
    destruct (Hysteresis.fires _ _ _ _ _ _); cbn [Hysteresis.bump] in *.
    + replace (Z.to_nat (final - stepCount (service w)))
        with (S (Z.to_nat (final - (stepCount (service w) + 1)))) by lia.
      rewrite received_S, <- app_assoc. reflexivity.
    + rewrite Z.add_0_r. reflexivity.
Qed.

(** X4. With a callback registered, feeding any sequence of metrics to
    [detectStep] hands the callback exactly the post-increment counts
    [c + 1, c + 2, ..., c'], one per event and in order, where [c] and [c']
    are the counts before and after. *)
Theorem callback_receives_every_count :
  forall (w : World) (ms : list Hysteresis.Metric),
    onStepCountUpdate (service w) = true ->
    let c := stepCount (service w) in
    let c' := stepCount (service (exec (Hysteresis.feed ms) w)) in
    c <= c'
    /\ updates (exec (Hysteresis.feed ms) w)
       = rev (List.map (fun i => c + Z.of_nat i) (seq 1 (Z.to_nat (c' - c))))
         ++ updates w.
Proof.
  intros w ms Hcb c c'. split; [apply feed_never_lowers|].
  apply (feed_updates ms w Hcb).
Qed.

End Streams.

Definition walkTo37 : World :=
  exec (StepCounterService.addSteps 1699920005000 37)
       (exec StepCounterService.setStepCountUpdateListener freshAndroid).

(** Five strides, 400 ms apart, each a dip below and a rise above 1.2. *)
Definition fiveStrides : list Hysteresis.Metric :=
  flat_map (fun i => [(1699920010000 + 400 * Z.of_nat i, 0.9%float);
                      (1699920010200 + 400 * Z.of_nat i, 1.6%float)])
           (seq 0 5).

Lemma stored_count_example :
  exists p,
    steps <$> (storage (exec (Hysteresis.feed fiveStrides) walkTo37) !! 19675) = Some p
    /\ p <= stepCount (service (exec (Hysteresis.feed fiveStrides) walkTo37)) < p + 10.
Proof.
  apply (Streams.stored_count_lags_by_less_than_ten walkTo37 fiveStrides 19675).
  - repeat (constructor; [reflexivity|]). constructor.
  - reflexivity.
Defined.

Lemma callback_example :
  updates (exec (Hysteresis.feed fiveStrides) walkTo37)
  = [42; 41; 40; 39; 38] ++ updates walkTo37.
Proof.
  destruct (Streams.callback_receives_every_count walkTo37 fiveStrides eq_refl)
    as [_ Received].
  rewrite Received. reflexivity.
Defined.

(** * Beyond the claims: how fast and how often the detectors can count *)

Module Debounce.

Import StepCounterService.

Lemma fires_interval threshold interval previous lastEvent now metric :
  Hysteresis.fires threshold interval previous lastEvent now metric = true ->
  interval < now - lastEvent.
Proof.
  unfold Hysteresis.fires. intros H.
  apply andb_prop in H. destruct H as [_ H]. apply Z.ltb_lt. exact H.
Qed.

(** X5. However the metrics and their clock readings are arranged,
    [detectStep] never counts faster than one step per interval: over any
    sequence, the number of steps counted times [minStepInterval + 1] is at
    most the distance that [lastStepTime] has moved. *)
Theorem hysteresis_rate_is_bounded :
  forall (ms : list Hysteresis.Metric) (w : World),
    let w1 := exec (Hysteresis.feed ms) w in
    minStepInterval (service w1) = minStepInterval (service w)
    /\ 0 <= stepCount (service w1) - stepCount (service w)
    /\ (stepCount (service w1) - stepCount (service w))
       * (minStepInterval (service w) + 1)
       <= lastStepTime (service w1) - lastStepTime (service w).
Proof.
  induction ms as [|[now metric] rest IH]; intros w; cbv zeta.
  - cbn. lia.
  - rewrite Streams.feed_cons.
    specialize (IH (exec (detectStep now metric) w)). cbv zeta in IH.
    set (final := exec (Hysteresis.feed rest) (exec (detectStep now metric) w)) in *.
    rewrite Streams.detectStep_world in IH. cbv zeta in IH.
    cbn [service stepCount minStepInterval lastStepTime] in IH.
    destruct IH as (Hgap & Hpos & Hrate). rewrite Hgap.
    destruct (Hysteresis.fires _ _ _ _ _ _) eqn:Hf; cbn [Hysteresis.bump] in *.
    + apply fires_interval in Hf. split; [reflexivity|]. split; [lia|]. nia.
    + split; [reflexivity|]. split; [lia|]. nia.
Qed.

Lemma above_never_rearms threshold interval ms : forall previous lastEvent,
  JS.le previous threshold = false ->
  Forall (fun m : Hysteresis.Metric => JS.gt (snd m) threshold = true) ms ->
  Hysteresis.events threshold interval previous lastEvent ms
  = repeat false (length ms).
Proof.
  induction ms as [|[now metric] rest IH]; intros previous lastEvent Hprev H;
    [reflexivity|].
  inversion H as [|? ? Hm Hrest]; subst. cbn [snd] in Hm.
  cbn [Hysteresis.events length repeat]. unfold Hysteresis.fires.
  rewrite Hprev, andb_false_r. cbn [andb]. f_equal.
  apply IH; [apply gt_not_le; exact Hm|exact Hrest].
Qed.

(** X6. A signal that stays above the threshold is counted at most once:
    fed any sequence of metrics that are all strictly above the threshold,
    [detectStep] adds at most one step, whatever the clock readings. *)
Theorem sustained_high_counts_at_most_once :
  forall (ms : list Hysteresis.Metric) (w : World),
    Forall (fun m : Hysteresis.Metric =>
              JS.gt (snd m) (stepThreshold (service w)) = true) ms ->
    stepCount (service w)
    <= stepCount (service (exec (Hysteresis.feed ms) w))
    <= stepCount (service w) + 1.
Proof.
  intros ms w H. split; [apply Streams.feed_never_lowers|].
  rewrite Hysteresis.feed_count, Hysteresis.increments_events.
  destruct ms as [|[now metric] rest]; [cbn; lia|].
  inversion H as [|? ? Hm Hrest]; subst. cbn [snd] in Hm.
  cbn [Hysteresis.events List.map fold_right].
  rewrite (above_never_rearms _ _ rest metric _ (gt_not_le _ _ Hm) Hrest).
  rewrite Hysteresis.sum_bump_repeat_false.
  pose proof (Streams.bump_range
    (Hysteresis.fires (stepThreshold (service w)) (minStepInterval (service w))
       (lastMagnitude (service w)) (lastStepTime (service w)) now metric)). lia.
Qed.

Lemma detect_rate now x y z h :
  let h1 := snd (IOSStepCounterHelper.detectStepFromAcceleration now x y z h) in
  0 <= IOSStepCounterHelper.stepCount h1 - IOSStepCounterHelper.stepCount h
  /\ (IOSStepCounterHelper.stepCount h1 - IOSStepCounterHelper.stepCount h) * 301
     <= IOSStepCounterHelper.lastStepTime h1 - IOSStepCounterHelper.lastStepTime h.
Proof.
  cbv zeta. unfold IOSStepCounterHelper.detectStepFromAcceleration. cbv zeta.
  destruct (Nat.ltb (length _) IOSStepCounterHelper.bufferSize); [cbn; lia|].
  match goal with
  | |- context [if ?c then _ else _] => destruct c eqn:Hpeak
  end; [|cbn; lia].
  apply andb_prop in Hpeak. destruct Hpeak as [_ Hlate].
  apply Z.ltb_lt in Hlate. cbn. lia.
Qed.

(** X7. The windowed detector never counts faster than one step per 300 ms:
    over any sequence of readings, 301 times the number of steps counted is
    at most the distance that the helper's [lastStepTime] has moved. *)
Theorem windowed_rate_is_bounded :
  forall (rs : list IOSStepCounterHelper.Reading) (h : IOSStepCounterHelper.t),
    let h1 := snd (IOSStepCounterHelper.feed rs h) in
    0 <= IOSStepCounterHelper.stepCount h1 - IOSStepCounterHelper.stepCount h
    /\ (IOSStepCounterHelper.stepCount h1 - IOSStepCounterHelper.stepCount h) * 301
       <= IOSStepCounterHelper.lastStepTime h1 - IOSStepCounterHelper.lastStepTime h.
Proof.
  induction rs as [|[now [[x y] z]] rest IH]; intros h; cbv zeta.
  - cbn. lia.
  - cbn [IOSStepCounterHelper.feed].
    pose proof (detect_rate now x y z h) as H1. cbv zeta in H1.
    destruct (IOSStepCounterHelper.detectStepFromAcceleration now x y z h)
      as [fired h1]. cbn [snd] in H1.
    specialize (IH h1). cbv zeta in IH.
    destruct (IOSStepCounterHelper.feed rest h1) as [flags h2]. cbn [snd] in *.
    lia.
Qed.

End Debounce.

Lemma sustained_high_example :
  stepCount (service freshAndroid)
  <= stepCount (service (exec (Hysteresis.feed
       [(1000, 1.5%float); (1300, 1.7%float); (1600, 2.5%float); (1900, 1.3%float)])
       freshAndroid))
  <= stepCount (service freshAndroid) + 1.
Proof.
  apply (Debounce.sustained_high_counts_at_most_once
           [(1000, 1.5%float); (1300, 1.7%float); (1600, 2.5%float); (1900, 1.3%float)]
           freshAndroid).
  repeat (constructor; [reflexivity|]). constructor.
Defined.

(** * Beyond the claims: the two counters on iOS *)

Module IOSPath.

Import StepCounterService.

(** One reading delivered to the listener on iOS, on every field. *)
Lemma onAccelerometer_world w now x y z :
  is_ios (platform w) = true ->
  let r := IOSStepCounterHelper.detectStepFromAcceleration now x y z (iosHelper w) in
  let count := IOSStepCounterHelper.getStepCount (snd r) in
  exec (onAccelerometer now x y z) w
  = if fst r then
      mkWorld (platform w) (set_stepCount count (service w)) (snd r)
        (if Z.rem count 10 =? 0
         then <[dayOf now := mkStepData count (dayOf now) now]> (storage w)
         else storage w)
        (if onStepCountUpdate (service w) then count :: updates w else updates w)
    else mkWorld (platform w) (service w) (snd r) (storage w) (updates w).
Proof.
  destruct w as [os [c lm th lt gap cb] h st ups]. cbn [platform iosHelper].
  intros Hos. cbv zeta. unfold onAccelerometer, onIOS. Ledger.reduce_monad.
  rewrite Hos.
  destruct (IOSStepCounterHelper.detectStepFromAcceleration now x y z h)
    as [detected h1].
  destruct detected; Ledger.reduce_monad; [|reflexivity].
  destruct cb; Ledger.reduce_monad;
    destruct (Z.rem (IOSStepCounterHelper.getStepCount h1) 10 =? 0); reflexivity.
Qed.

Lemma detect_flag now x y z h :
  let r := IOSStepCounterHelper.detectStepFromAcceleration now x y z h in
  IOSStepCounterHelper.stepCount (snd r)
  = IOSStepCounterHelper.stepCount h + (if fst r then 1 else 0).
Proof.
  cbv zeta. unfold IOSStepCounterHelper.detectStepFromAcceleration. cbv zeta.
  destruct (Nat.ltb (length _) IOSStepCounterHelper.bufferSize); [cbn; lia|].
  destruct (_ && _ && (300 <? _)); cbn; lia.
Qed.

(** The service's count and the helper's agree. *)
Definition agree (w : World) : Prop :=
  stepCount (service w) = IOSStepCounterHelper.stepCount (iosHelper w).

(** Everything but a synchronisation with the health app. *)
Definition noSync (op : Ledger.Op) : Prop :=
  match op with
  | Ledger.Sync _ _ => False
  | _ => True
  end.

Lemma run_agree op w :
  platform w = ios -> noSync op -> agree w ->
  platform (exec (Ledger.run op) w) = ios /\ agree (exec (Ledger.run op) w).
Proof.
  intros Hos Hop Hag.
  destruct op as [t x y z|t n|t p|p|t days|v|t|t]; cbn [noSync] in Hop;
    try contradiction; cbn [Ledger.run].
  - rewrite onAccelerometer_world by (rewrite Hos; reflexivity). cbv zeta.
    pose proof (detect_flag t x y z (iosHelper w)) as Hc. cbv zeta in Hc.
    destruct (IOSStepCounterHelper.detectStepFromAcceleration t x y z (iosHelper w))
      as [detected h1]. cbn [fst snd] in *.
    unfold agree in *. destruct detected; cbn; split; auto; lia.
  - destruct w as [os [c lm th lt gap cb] h st ups]. cbn [platform] in Hos. subst os.
    unfold agree, addSteps, onIOS in *. Ledger.reduce_monad. cbn [is_ios].
    Ledger.reduce_monad. destruct cb; Ledger.reduce_monad; split; reflexivity.
  - unfold exec, bind. rewrite Ledger.compare_pure. cbn [snd]. split; assumption.
  - unfold exec, bind. rewrite History.getStepHistory_eval. cbn [snd].
    split; assumption.
  - destruct w as [os s h st ups]. split; [exact Hos|exact Hag].
  - destruct w as [os s h st ups]. split; [exact Hos|exact Hag].
  - destruct w as [os [c lm th lt gap cb] h st ups]. cbn [platform] in Hos. subst os.
    unfold agree, resetDailySteps, onIOS in *. Ledger.reduce_monad. cbn [is_ios].
    Ledger.reduce_monad. destruct cb; Ledger.reduce_monad; split; reflexivity.
Qed.

Lemma runAll_cons op rest w :
  exec (Ledger.runAll (op :: rest)) w
  = exec (Ledger.runAll rest) (exec (Ledger.run op) w).
Proof.
  cbn [Ledger.runAll]. unfold exec, bind.
  destruct (Ledger.run op w) as [[] w1]. reflexivity.
Qed.

(** X8. On iOS the service's count and the helper's stay equal under every
    operation but a synchronisation with the health app: if they agree, then
    after any sequence of readings, manual additions, resets, comparisons,
    history reads, sensitivity changes and stops they still agree, so that
    what is persisted and notified is what [getCurrentStepCount()] returns. *)
Theorem counters_agree_without_sync :
  forall (ops : list Ledger.Op) (w : World),
    platform w = ios ->
    Forall noSync ops ->
    agree w ->
    let w1 := exec (Ledger.runAll ops) w in
    agree w1 /\ eval getCurrentStepCount w1 = stepCount (service w1).
Proof.
  induction ops as [|op rest IH]; intros w Hos Hops Hag; cbv zeta.
  - change (exec (Ledger.runAll []) w) with w.
    split; [exact Hag|]. rewrite Startup.getCurrentStepCount_eval, Hos.
    cbn [is_ios]. symmetry. exact Hag.
  - inversion Hops as [|? ? Hop Hrest]; subst. rewrite runAll_cons.
    destruct (run_agree op w Hos Hop Hag) as [Hos1 Hag1].
    apply (IH _ Hos1 Hrest Hag1).
Qed.

Lemma detect_short now x y z h :
  (length (IOSStepCounterHelper.stepBuffer h) + 1 < 20)%nat ->
  IOSStepCounterHelper.detectStepFromAcceleration now x y z h
  = (false,
     IOSStepCounterHelper.mk (IOSStepCounterHelper.stepBuffer h ++ [JS.Math_abs z])
       (IOSStepCounterHelper.lastStepTime h) (IOSStepCounterHelper.stepThreshold h)
       (IOSStepCounterHelper.stepCount h)).
Proof.
  intros H. unfold IOSStepCounterHelper.detectStepFromAcceleration. cbv zeta.
  unfold IOSStepCounterHelper.bufferSize.
  assert (E1 : Nat.ltb 20 (length (IOSStepCounterHelper.stepBuffer h ++ [JS.Math_abs z]))
               = false).
  { apply Nat.ltb_ge. rewrite length_app. cbn. lia. }
  rewrite E1.
  assert (E2 : Nat.ltb (length (IOSStepCounterHelper.stepBuffer h ++ [JS.Math_abs z])) 20
               = true).
  { apply Nat.ltb_lt. rewrite length_app. cbn. lia. }
  rewrite E2. reflexivity.
Qed.

Definition deliver (rs : list IOSStepCounterHelper.Reading) : list Ledger.Op :=
  List.map (fun r : IOSStepCounterHelper.Reading =>
              Ledger.Sample (fst r) (fst (fst (snd r))) (snd (fst (snd r))) (snd (snd r)))
           rs.

Lemma filling_changes_nothing rs : forall w,
  platform w = ios ->
  (length (IOSStepCounterHelper.stepBuffer (iosHelper w)) + length rs < 20)%nat ->
  let w1 := exec (Ledger.runAll (deliver rs)) w in
  platform w1 = ios /\ service w1 = service w /\ storage w1 = storage w
  /\ updates w1 = updates w
  /\ IOSStepCounterHelper.stepCount (iosHelper w1)
     = IOSStepCounterHelper.stepCount (iosHelper w).
Proof.
  induction rs as [|[now [[x y] z]] rest IH]; intros w Hos Hlen; cbv zeta.
  - cbn. repeat split. exact Hos.
  - cbn [deliver List.map fst snd]. fold (deliver rest). rewrite runAll_cons.
    cbn [Ledger.run]. cbn [length] in Hlen.
    rewrite onAccelerometer_world by (rewrite Hos; reflexivity). cbv zeta.
    rewrite detect_short by lia. cbn [fst snd].
    match goal with
    | |- context [exec (Ledger.runAll (deliver rest)) ?w0] =>
        destruct (IH w0) as (H1 & H2 & H3 & H4 & H5)
    end.
    + exact Hos.
    + cbn [iosHelper IOSStepCounterHelper.stepBuffer]. rewrite length_app. cbn. lia.
    + cbn [service storage updates iosHelper IOSStepCounterHelper.stepCount] in *.
      repeat split; assumption.
Qed.

(** X9. On iOS a reset empties the helper's buffer, so the detector is blind
    until it has refilled: the first 19 readings after [resetDailySteps]
    count no step, save nothing and notify nobody, and
    [getCurrentStepCount()] still returns 0 after them. *)
Theorem reset_blinds_the_next_readings :
  forall (w : World) (now : Z) (rs : list IOSStepCounterHelper.Reading),
    platform w = ios ->
    (length rs < 20)%nat ->
    let w0 := exec (resetDailySteps now) w in
    let w1 := exec (Ledger.runAll (deliver rs)) w0 in
    service w1 = service w0 /\ storage w1 = storage w0
    /\ updates w1 = updates w0
    /\ eval getCurrentStepCount w1 = 0.
Proof.
  intros w now rs Hos Hlen. cbv zeta.
  assert (H0 : platform (exec (resetDailySteps now) w) = ios
               /\ iosHelper (exec (resetDailySteps now) w)
                  = IOSStepCounterHelper.resetStepCount (iosHelper w)).
  { destruct w as [os [c lm th lt gap cb] h st ups]. cbn [platform] in Hos. subst os.
    unfold resetDailySteps, onIOS. Ledger.reduce_monad. cbn [is_ios].
    Ledger.reduce_monad. destruct cb; Ledger.reduce_monad; split; reflexivity. }
  destruct H0 as [Hos0 Hh0].
  destruct (filling_changes_nothing rs (exec (resetDailySteps now) w) Hos0)
    as (H1 & H2 & H3 & H4 & H5).
  { rewrite Hh0. cbn. lia. }
  split; [exact H2|]. split; [exact H3|]. split; [exact H4|].
  rewrite Startup.getCurrentStepCount_eval, H1. cbn [is_ios].
  rewrite H5, Hh0. reflexivity.
Qed.

End IOSPath.

Lemma counters_agree_example :
  let ops := IOSPath.deliver steadyThenPeak
             ++ [Ledger.AddSteps 1699920009000 5;
                 Ledger.Compare (healthAnswers (Some 50));
                 Ledger.Stop 1699920009500] in
  let w1 := exec (Ledger.runAll ops) (iosAt 100) in
  stepCount (service w1) = 106
  /\ eval StepCounterService.getCurrentStepCount w1 = stepCount (service w1).
Proof.
  cbv zeta.
  destruct (IOSPath.counters_agree_without_sync
              (IOSPath.deliver steadyThenPeak
               ++ [Ledger.AddSteps 1699920009000 5;
                   Ledger.Compare (healthAnswers (Some 50));
                   Ledger.Stop 1699920009500])
              (iosAt 100)) as [_ Same].
  - reflexivity.
  - repeat (constructor; [exact I|]). constructor.
  - reflexivity.
  - split; [vm_compute; reflexivity|exact Same].
Defined.

Lemma reset_blinds_example :
  let w0 := exec (StepCounterService.resetDailySteps 1699920009000) (iosAt 100) in
  let strides := List.map (fun i => (1699920010000 + 400 * Z.of_nat i,
                                     (0%float, 0%float,
                                      if Nat.even i then 3.0%float else 0.2%float)))
                          (seq 0 19) in
  eval StepCounterService.getCurrentStepCount
    (exec (Ledger.runAll (IOSPath.deliver strides)) w0) = 0.
Proof.
  cbv zeta.
  apply (IOSPath.reset_blinds_the_next_readings (iosAt 100) 1699920009000
           (List.map (fun i => (1699920010000 + 400 * Z.of_nat i,
                                (0%float, 0%float,
                                 if Nat.even i then 3.0%float else 0.2%float)))
                     (seq 0 19))).
  - reflexivity.
  - cbn. lia.
Defined.

(** * Beyond the claims: the update callback *)

Module Listener.

Import StepCounterService.

Lemma run_silent op w :
  onStepCountUpdate (service w) = false ->
  onStepCountUpdate (service (exec (Ledger.run op) w)) = false
  /\ updates (exec (Ledger.run op) w) = updates w.
Proof.
  destruct w as [os [c lm th lt gap cb] h st ups]. cbn [service onStepCountUpdate].
  intros ->.
  destruct op as [t x y z|t n|t p|p|t days|v|t|t]; cbn [Ledger.run].
  - destruct (is_ios os) eqn:Hos.
    + rewrite IOSPath.onAccelerometer_world by exact Hos. cbv zeta.
      destruct (IOSStepCounterHelper.detectStepFromAcceleration _ _ _ _ _)
        as [detected h1]. cbn [fst snd]. destruct detected; split; reflexivity.
    + unfold exec. rewrite Ledger.onAccelerometer_generic by exact Hos.
      fold (exec (detectStep t (Stats.magnitude x y z)) (mkWorld os
              (mkService c lm th lt gap false) h st ups)).
      rewrite Streams.detectStep_world. cbv zeta. cbn.
      rewrite andb_false_r. split; reflexivity.
  - unfold addSteps, onIOS. Ledger.reduce_monad.
    destruct (is_ios os); Ledger.reduce_monad; split; reflexivity.
  - unfold syncWithHealthApp, onIOS. Ledger.reduce_monad.
    destruct (is_ios os); Ledger.reduce_monad; [|split; reflexivity].
    destruct (isAvailable p) as [[|]|err]; Ledger.reduce_monad;
      try (split; reflexivity).
    destruct (getStepsFromHealthApp p) as [[e|]|err]; Ledger.reduce_monad;
      split; reflexivity.
  - unfold exec, bind. rewrite Ledger.compare_pure. split; reflexivity.
  - unfold exec, bind. rewrite History.getStepHistory_eval. split; reflexivity.
  - split; reflexivity.
  - split; reflexivity.
  - unfold resetDailySteps, onIOS. Ledger.reduce_monad.
    destruct (is_ios os); Ledger.reduce_monad; split; reflexivity.
Qed.

Lemma runAll_silent ops : forall w,
  onStepCountUpdate (service w) = false ->
  updates (exec (Ledger.runAll ops) w) = updates w.
Proof.
  induction ops as [|op rest IH]; intros w H; [reflexivity|].
  rewrite IOSPath.runAll_cons. destruct (run_silent op w H) as [H1 H2].
  rewrite (IH _ H1). exact H2.
Qed.

(** X10. Once the callback has been removed nothing is delivered any more:
    after [removeStepCountUpdateListener], no sequence of readings, manual
    additions, synchronisations, resets or any other operation of the service
    calls it; the same holds from a state in which none was ever
    registered. *)
Theorem removed_listener_hears_nothing :
  forall (ops : list Ledger.Op) (w : World),
    updates (exec (Ledger.runAll ops) (exec removeStepCountUpdateListener w))
    = updates w
    /\ (onStepCountUpdate (service w) = false ->
        updates (exec (Ledger.runAll ops) w) = updates w).
Proof.
  intros ops w. split.
  - rewrite runAll_silent by (destruct w as [os [] h st ups]; reflexivity).
    destruct w as [os [] h st ups]; reflexivity.
  - apply runAll_silent.
Qed.

End Listener.

Lemma removed_listener_example :
  updates (exec (Ledger.runAll [Ledger.AddSteps 1699920009000 5;
                                Ledger.Reset 1699920009500])
                freshAndroid) = [].
Proof.
  destruct (Listener.removed_listener_hears_nothing
              [Ledger.AddSteps 1699920009000 5; Ledger.Reset 1699920009500]
              freshAndroid) as [_ Silent].
  exact (Silent eq_refl).
Defined.

(** * Beyond the claims: the dashboard's use of the service

    [loadUserData] and the status line of
    [components/weight-activity-tracker.tsx]. *)

Module Dashboard.

Import StepCounterService.

(** What the query for today's row of [step_data] resolved to: an error
    (no row), a row, or neither. *)
Inductive StepRow :=
  | RowError
  | Row (steps : Z)
  | NoRow.

(** The step part of [loadUserData]: the value handed to [setDailySteps]
    (if any), the device counter being raised to the row's count when the
    row holds more. *)
Definition loadTodaysRow (now : Z) (row : StepRow) : M (option Z) :=
  match row with
  | RowError =>
      do deviceSteps <- getCurrentStepCount;
      ret (Some deviceSteps)
  | Row rowSteps =>
      do deviceSteps <- getCurrentStepCount;
      let maxSteps := Z.max rowSteps deviceSteps in
      when (deviceSteps <? rowSteps) (addSteps now (rowSteps - deviceSteps)) ;;
      ret (Some maxSteps)
  | NoRow => ret None
  end.

Lemma getCurrentStepCount_pure w :
  getCurrentStepCount w = (Ledger.current w, w).
Proof.
  unfold Ledger.current, eval, getCurrentStepCount, bind, onIOS, gets.
  destruct (is_ios (platform w)); reflexivity.
Qed.

Lemma addSteps_current now n w :
  Ledger.current (exec (addSteps now n) w) = Ledger.current w + n.
Proof.
  destruct w as [os [c lm th lt gap cb] h st ups]. rewrite !Ledger.current_cases.
  unfold addSteps, onIOS. Ledger.reduce_monad.
  destruct (is_ios os) eqn:Hos; Ledger.reduce_monad; destruct cb;
    Ledger.reduce_monad; rewrite Hos; reflexivity.
Qed.

Lemma loadTodaysRow_row now rowSteps w :
  loadTodaysRow now (Row rowSteps) w
  = (Some (Z.max rowSteps (Ledger.current w)),
     if Ledger.current w <? rowSteps
     then exec (addSteps now (rowSteps - Ledger.current w)) w
     else w).
Proof.
  unfold loadTodaysRow, bind. rewrite getCurrentStepCount_pure.
  unfold when, exec, ret.
  destruct (Ledger.current w <? rowSteps); [|reflexivity].
  destruct (addSteps now (rowSteps - Ledger.current w) w) as [[] w1]. reflexivity.
Qed.

(** X11. On either platform, loading a row that holds [P] steps shows
    [max(P, device)] and leaves [getCurrentStepCount()] returning
    [max(P, device)]: the device counter is raised by the difference when the
    row holds more and left alone otherwise. Loading the same row again
    changes nothing. *)
Theorem loadTodaysRow_takes_the_maximum :
  forall (w : World) (now later : Z) (P : Z),
    let device := Ledger.current w in
    let w1 := exec (loadTodaysRow now (Row P)) w in
    eval (loadTodaysRow now (Row P)) w = Some (Z.max P device)
    /\ Ledger.current w1 = Z.max P device
    /\ (P <= device -> w1 = w)
    /\ exec (loadTodaysRow later (Row P)) w1 = w1.
Proof.
  intros w now later P. cbv zeta.
  assert (Hrun : exec (loadTodaysRow now (Row P)) w
                 = if Ledger.current w <? P
                   then exec (addSteps now (P - Ledger.current w)) w
                   else w).
  { unfold exec at 1. rewrite loadTodaysRow_row. reflexivity. }
  rewrite Hrun.
  assert (Hcur : Ledger.current
                   (if Ledger.current w <? P
                    then exec (addSteps now (P - Ledger.current w)) w else w)
                 = Z.max P (Ledger.current w)).
  { destruct (Z.ltb_spec (Ledger.current w) P).
    - rewrite addSteps_current. lia.
    - lia. }
  split; [unfold eval; rewrite loadTodaysRow_row; reflexivity|].
  split; [exact Hcur|]. split.
  - intros Hle. destruct (Z.ltb_spec (Ledger.current w) P); [lia|reflexivity].
  - unfold exec at 1. rewrite loadTodaysRow_row, Hcur. cbn [snd].
    destruct (Z.ltb_spec (Z.max P (Ledger.current w)) P); [lia|reflexivity].
Qed.

End Dashboard.

Lemma loadTodaysRow_example :
  Ledger.current (exec (Dashboard.loadTodaysRow 1699920009000 (Dashboard.Row 250))
                       (iosAt 100)) = 250
  /\ exec (Dashboard.loadTodaysRow 1699920009000 (Dashboard.Row 60)) (iosAt 100)
     = iosAt 100.
Proof.
  destruct (Dashboard.loadTodaysRow_takes_the_maximum (iosAt 100)
              1699920009000 1699920009000 250) as (_ & Max & _).
  destruct (Dashboard.loadTodaysRow_takes_the_maximum (iosAt 100)
              1699920009000 1699920009000 60) as (_ & _ & Same & _).
  split; [exact Max|]. apply Same. vm_compute. discriminate.
Defined.

(** * Beyond the claims: the accuracy estimate and what calibration touches *)

Module Accuracy.

Import StepCounterService.

(** [a !== b] on numbers. *)
Definition strictNotEqual (a b : float) : bool := negb (PrimFloat.eqb a b).

(** [IOSStepCounterHelper.getAccuracyEstimate]. *)
Definition helperAccuracyEstimate (h : IOSStepCounterHelper.t) : float :=
  let accuracy := 0.75%float in
  let accuracy :=
    if strictNotEqual (IOSStepCounterHelper.stepThreshold h) 0.3%float
    then PrimFloat.add accuracy 0.15%float else accuracy in
  let accuracy :=
    if Nat.leb IOSStepCounterHelper.bufferSize
               (length (IOSStepCounterHelper.stepBuffer h))
    then PrimFloat.add accuracy 0.05%float else accuracy in
  JS.Math_min 0.95%float accuracy.

Definition isCalibrated : M bool :=
  gets (fun w => strictNotEqual (stepThreshold (service w)) 1.2%float).

Definition getAccuracyEstimate : M float :=
  do useHelper <- onIOS;
  if useHelper then gets (fun w => helperAccuracyEstimate (iosHelper w))
  else
    do calibrated <- isCalibrated;
    do os <- gets platform;
    let accuracy := 0.7%float in
    let accuracy := if calibrated then PrimFloat.add accuracy 0.2%float else accuracy in
    let accuracy :=
      match os with
      | android => PrimFloat.add accuracy 0.1%float
      | _ => accuracy
      end in
    ret (JS.Math_min 0.95%float accuracy).

(** The threshold of the detector in use differs from its initial value. *)
Definition thresholdChanged (w : World) : bool :=
  if is_ios (platform w)
  then strictNotEqual (IOSStepCounterHelper.stepThreshold (iosHelper w)) 0.3%float
  else strictNotEqual (stepThreshold (service w)) 1.2%float.

(** X12. [getAccuracyEstimate()] changes nothing and always lies between
    0.7 and 0.95; it is above 0.8 (the dashboard's "High Accuracy") exactly
    when the threshold of the detector in use differs from its initial value
    (0.3 for the helper on iOS, 1.2 elsewhere), whatever the platform bonus
    and the state of the buffer. *)
Theorem accuracy_estimate_tells_calibration :
  forall w : World,
    let estimate := eval getAccuracyEstimate w in
    exec getAccuracyEstimate w = w
    /\ Stats.within 0.7%float 0.95%float estimate
    /\ JS.gt estimate 0.8%float = thresholdChanged w.
Proof.
  intros [os [c lm th lt gap cb] h st ups]. cbv zeta.
  unfold thresholdChanged, getAccuracyEstimate, isCalibrated, eval, exec, bind,
    onIOS, gets, ret, helperAccuracyEstimate, Stats.within.
  destruct os;
    cbv beta iota delta [platform service iosHelper stepThreshold fst snd is_ios].
  - destruct (strictNotEqual (IOSStepCounterHelper.stepThreshold h) 0.3%float);
      destruct (Nat.leb _ _); repeat split.
  - destruct (strictNotEqual th 1.2%float); repeat split.
  - destruct (strictNotEqual th 1.2%float); repeat split.
Qed.

Lemma calibrationListener_threshold_only now x y z c w :
  exists t, exec (calibrationListener now x y z c) w
            = with_service (set_stepThreshold t) w.
Proof.
  unfold calibrationListener, exec.
  destruct (negb (calibrationSubscription c)).
  - exists (stepThreshold (service w)).
    destruct w as [os [] h st ups]. reflexivity.
  - destruct (calibrationDuration <? now - startTime c).
    + unfold bind, when, modify, ret.
      destruct (Nat.ltb 0 _); cbn [snd].
      * eexists. reflexivity.
      * exists (stepThreshold (service w)).
        destruct w as [os [] h st ups]. reflexivity.
    + exists (stepThreshold (service w)).
      destruct w as [os [] h st ups]. reflexivity.
Qed.

Lemma calibrate_threshold_only rs : forall c w,
  exists t, exec (calibrate rs c) w = with_service (set_stepThreshold t) w.
Proof.
  induction rs as [|[now [[x y] z]] rest IH]; intros c w.
  - exists (stepThreshold (service w)). destruct w as [os [] h st ups]. reflexivity.
  - cbn [calibrate]. unfold exec, bind.
    destruct (calibrationListener_threshold_only now x y z c w) as [t Ht].
    unfold exec in Ht.
    destruct (calibrationListener now x y z c w) as [c1 w1]. cbn [snd] in Ht.
    subst w1. destruct (IH c1 (with_service (set_stepThreshold t) w)) as [t' Ht'].
    unfold exec in Ht'. rewrite Ht'. exists t'.
    destruct w as [os [] h st ups]. reflexivity.
Qed.

(** X13. A [calibrateStepDetection] session touches nothing but the
    service's own threshold: the count, the stored records, the callback and
    the helper are as before. On iOS, where the helper detects, the session
    therefore changes neither [getCurrentStepCount()] nor the accuracy
    estimate, and the helper's threshold stays what it was. *)
Theorem calibration_touches_the_threshold_only :
  forall (rs : list IOSStepCounterHelper.Reading) (c : Calibration) (w : World),
    let w1 := exec (calibrate rs c) w in
    (exists t, w1 = with_service (set_stepThreshold t) w)
    /\ iosHelper w1 = iosHelper w
    /\ storage w1 = storage w
    /\ updates w1 = updates w
    /\ stepCount (service w1) = stepCount (service w)
    /\ (platform w = ios ->
        eval getCurrentStepCount w1 = eval getCurrentStepCount w
        /\ eval getAccuracyEstimate w1 = eval getAccuracyEstimate w).
Proof.
  intros rs c w. cbv zeta.
  destruct (calibrate_threshold_only rs c w) as [t Ht]. rewrite Ht.
  destruct w as [os [cnt lm th lt gap cb] h st ups].
  split; [exists t; reflexivity|]. repeat split;
    cbn [platform] in *; subst os; reflexivity.
Qed.

(** X14. The threshold a calibration produces is within the clamp range or
    is NaN: [[0.8, 2.0]] for the generic session, [[0.2, 0.8]] for
    [calibrateForUser] given at least 10 samples. *)
Theorem calibrated_threshold_in_range_or_nan :
  forall (xs : list float) (h : IOSStepCounterHelper.t),
    (10 <= length xs)%nat ->
    (is_nan (calibratedThreshold xs) = true
     \/ Stats.within 0.8%float 2.0%float (calibratedThreshold xs))
    /\ (is_nan (IOSStepCounterHelper.stepThreshold
                  (IOSStepCounterHelper.calibrateForUser xs h)) = true
        \/ Stats.within 0.2%float 0.8%float
             (IOSStepCounterHelper.stepThreshold
                (IOSStepCounterHelper.calibrateForUser xs h))).
Proof.
  intros xs h Hlen. split.
  - unfold calibratedThreshold. cbv zeta.
    match goal with
    | |- context [JS.Math_min 2%float ?v] => destruct (is_nan v) eqn:Hv
    end.
    + left. unfold JS.Math_min, JS.Math_max. rewrite Hv. reflexivity.
    + right. apply (Stats.clamp_within 0.8%float 2.0%float _); auto.
  - unfold IOSStepCounterHelper.calibrateForUser.
    assert (E : Nat.ltb (length xs) 10 = false) by (apply Nat.ltb_ge; lia).
    rewrite E. cbv zeta. cbn [IOSStepCounterHelper.stepThreshold].
    match goal with
    | |- context [JS.Math_min 0.8%float ?v] => destruct (is_nan v) eqn:Hv
    end.
    + left. unfold JS.Math_min, JS.Math_max. rewrite Hv. reflexivity.
    + right. apply (Stats.clamp_within 0.2%float 0.8%float _); auto.
Qed.

End Accuracy.

Lemma calibrated_threshold_example :
  (is_nan (StepCounterService.calibratedThreshold
             (repeat 1.0%float 5 ++ repeat 1.5%float 5)) = true
   \/ Stats.within 0.8%float 2.0%float
        (StepCounterService.calibratedThreshold
           (repeat 1.0%float 5 ++ repeat 1.5%float 5)))
  /\ (is_nan (IOSStepCounterHelper.stepThreshold
                (IOSStepCounterHelper.calibrateForUser
                   (repeat 1.0%float 5 ++ repeat 1.5%float 5)
                   IOSStepCounterHelper.new)) = true
      \/ Stats.within 0.2%float 0.8%float
           (IOSStepCounterHelper.stepThreshold
              (IOSStepCounterHelper.calibrateForUser
                 (repeat 1.0%float 5 ++ repeat 1.5%float 5)
                 IOSStepCounterHelper.new))).
Proof.
  apply (Accuracy.calibrated_threshold_in_range_or_nan
           (repeat 1.0%float 5 ++ repeat 1.5%float 5) IOSStepCounterHelper.new).
  cbn. lia.
Defined.

(** * Beyond the claims: a threshold that is not a number *)

Module NotANumber.

Import StepCounterService.

Lemma is_nan_Prim2SF t : is_nan t = true -> Prim2SF t = S754_nan.
Proof. intros H. unfold Prim2SF. rewrite H. reflexivity. Qed.

Lemma gt_nan m t : is_nan t = true -> JS.gt m t = false.
Proof.
  intros H. unfold JS.gt. rewrite FloatAxioms.ltb_spec, (is_nan_Prim2SF t H).
  reflexivity.
Qed.

Lemma add_nan a t : is_nan t = true -> is_nan (PrimFloat.add a t) = true.
Proof.
  intros H. unfold is_nan. rewrite FloatAxioms.eqb_spec, add_spec.
  rewrite (is_nan_Prim2SF t H). unfold SF64add, SFadd.
  destruct (Prim2SF a); reflexivity.
Qed.

Lemma events_nan threshold interval ms : forall previous lastEvent,
  is_nan threshold = true ->
  Hysteresis.events threshold interval previous lastEvent ms
  = repeat false (length ms).
Proof.
  induction ms as [|[now metric] rest IH]; intros previous lastEvent H;
    [reflexivity|].
  cbn [Hysteresis.events length repeat]. unfold Hysteresis.fires.
  rewrite (gt_nan metric threshold H). cbn [andb]. f_equal. apply IH. exact H.
Qed.

Lemma detect_nan now x y z h :
  is_nan (IOSStepCounterHelper.stepThreshold h) = true ->
  let r := IOSStepCounterHelper.detectStepFromAcceleration now x y z h in
  fst r = false
  /\ IOSStepCounterHelper.stepThreshold (snd r) = IOSStepCounterHelper.stepThreshold h
  /\ IOSStepCounterHelper.stepCount (snd r) = IOSStepCounterHelper.stepCount h.
Proof.
  intros H. cbv zeta.
  unfold IOSStepCounterHelper.detectStepFromAcceleration. cbv zeta.
  destruct (Nat.ltb (length _) IOSStepCounterHelper.bufferSize);
    [repeat split|].
  match goal with
  | |- context [JS.gt ?cur (PrimFloat.add ?avg (IOSStepCounterHelper.stepThreshold h))] =>
      rewrite (gt_nan cur _ (add_nan avg _ H))
  end.
  rewrite andb_false_r. cbn [andb]. repeat split.
Qed.

Lemma feed_nan rs : forall h,
  is_nan (IOSStepCounterHelper.stepThreshold h) = true ->
  fst (IOSStepCounterHelper.feed rs h) = repeat false (length rs)
  /\ IOSStepCounterHelper.stepCount (snd (IOSStepCounterHelper.feed rs h))
     = IOSStepCounterHelper.stepCount h.
Proof.
  induction rs as [|[now [[x y] z]] rest IH]; intros h H; [split; reflexivity|].
  cbn [IOSStepCounterHelper.feed length repeat].
  destruct (detect_nan now x y z h H) as (H1 & H2 & H3).
  destruct (IOSStepCounterHelper.detectStepFromAcceleration now x y z h)
    as [fired h1]. cbn [fst snd] in *. subst fired.
  destruct (IH h1) as [I1 I2]; [rewrite H2; exact H|].
  destruct (IOSStepCounterHelper.feed rest h1) as [flags h2]. cbn [fst snd] in *.
  split; [f_equal; exact I1|congruence].
Qed.

(** X15. A threshold that is NaN disables detection: [setStepThreshold] and
    the helper's [setThreshold] store NaN when handed NaN (the clamp lets it
    through), and with a NaN threshold neither [detectStep] nor
    [detectStepFromAcceleration] ever counts a step, whatever is fed. *)
Theorem nan_threshold_disables_detection :
  forall (v : float) (w : World) (h : IOSStepCounterHelper.t)
         (ms : list Hysteresis.Metric) (rs : list IOSStepCounterHelper.Reading),
    is_nan v = true ->
    let w1 := exec (setStepThreshold v) w in
    let h1 := IOSStepCounterHelper.setThreshold v h in
    is_nan (stepThreshold (service w1)) = true
    /\ is_nan (IOSStepCounterHelper.stepThreshold h1) = true
    /\ stepCount (service (exec (Hysteresis.feed ms) w1)) = stepCount (service w)
    /\ fst (IOSStepCounterHelper.feed rs h1) = repeat false (length rs)
    /\ IOSStepCounterHelper.stepCount (snd (IOSStepCounterHelper.feed rs h1))
       = IOSStepCounterHelper.stepCount h.
Proof.
  intros v w h ms rs Hv. cbv zeta.
  assert (Hw : is_nan (stepThreshold (service (exec (setStepThreshold v) w))) = true).
  { destruct w as [os [] hh st ups]. cbn.
    unfold JS.Math_max, JS.Math_min. rewrite Hv. reflexivity. }
  assert (Hh : is_nan (IOSStepCounterHelper.stepThreshold
                         (IOSStepCounterHelper.setThreshold v h)) = true).
  { cbn. unfold JS.Math_max, JS.Math_min. rewrite Hv. reflexivity. }
  split; [exact Hw|]. split; [exact Hh|]. split.
  - rewrite Hysteresis.feed_count, Hysteresis.increments_events.
    rewrite (events_nan _ _ ms _ _ Hw), Hysteresis.sum_bump_repeat_false.
    destruct w as [os [] hh st ups]. cbn. lia.
  - destruct (feed_nan rs _ Hh) as [F C]. split; [exact F|].
    rewrite C. reflexivity.
Qed.

End NotANumber.

Lemma nan_threshold_example :
  stepCount (service (exec (Hysteresis.feed fiveStrides)
                           (exec (StepCounterService.setStepThreshold nan) walkTo37)))
  = 37.
Proof.
  destruct (NotANumber.nan_threshold_disables_detection nan walkTo37
              IOSStepCounterHelper.new fiveStrides [] eq_refl)
    as (_ & _ & Dead & _).
  exact Dead.
Defined.

(** * Beyond the claims: availability, permissions and starting *)

Module Availability.

(** [Accelerometer.getPermissionsAsync()] / [requestPermissionsAsync()]. *)
Record Permission := mkPermission {
  granted : bool;
  canAskAgain : bool;
  status : string
}.

(** What the accelerometer of [expo-sensors] answers to each call. *)
Record Accelerometer := mkAccelerometer {
  isAvailableAsync : Outcome bool;
  getPermissionsAsync : Outcome Permission;
  requestPermissionsAsync : Outcome Permission
}.

(** [StepCounterService.isAvailable] (static). *)
Definition isAvailable (os : Platform) (acc : Accelerometer) : bool :=
  match os with
  | web => false
  | _ =>
      match isAvailableAsync acc with
      | Throws _ => false
      | Returns false => false
      | Returns true =>
          match os with
          | ios =>
              match getPermissionsAsync acc with
              | Returns permissions =>
                  if granted permissions then true
                  else if canAskAgain permissions then true
                  else false
              | Throws _ => true
              end
          | _ => true
          end
      end
  end.

(** [StepCounterService.requestPermissions] (static). *)
Definition requestPermissions (os : Platform) (acc : Accelerometer) : bool :=
  match isAvailableAsync acc with
  | Throws _ => false
  | Returns false => false
  | Returns true =>
      match os with
      | ios =>
          match requestPermissionsAsync acc with
          | Returns result => if negb (granted result) then false else true
          | Throws _ => false
          end
      | _ => true
      end
  end.

(** [startStepCounting]: whether it returns or throws, and [isListening]
    afterwards. *)
Definition startStepCounting (os : Platform) (acc : Accelerometer)
    (isListening : bool) : Outcome unit * bool :=
  if isListening then (Returns tt, isListening)
  else
    match isAvailableAsync acc with
    | Throws error => (Throws error, isListening)
    | Returns false => (Returns tt, isListening)
    | Returns true =>
        match os with
        | ios =>
            match requestPermissionsAsync acc with
            | Throws error => (Throws error, isListening)
            | Returns hasPermission =>
                if negb (granted hasPermission)
                then (Throws "Error: Motion permissions required for step counting",
                      isListening)
                else (Returns tt, true)
            end
        | _ => (Returns tt, true)
        end
    end.

(** [IOSStepCounterHelper.checkAvailability]. *)
Record IOSStepDetection := mkDetection {
  det_isAvailable : bool;
  det_permissionGranted : bool;
  det_stepCount : Z
}.

Definition checkAvailability (os : Platform) (acc : Accelerometer)
    (h : IOSStepCounterHelper.t) : IOSStepDetection :=
  let count := IOSStepCounterHelper.stepCount h in
  match os with
  | ios =>
      match isAvailableAsync acc with
      | Throws _ => mkDetection false false count
      | Returns available =>
          if available then
            match getPermissionsAsync acc with
            | Throws _ => mkDetection available false count
            | Returns permissions =>
                if negb (granted permissions) && canAskAgain permissions then
                  match requestPermissionsAsync acc with
                  | Throws _ => mkDetection available (granted permissions) count
                  | Returns requestResult =>
                      mkDetection available (granted requestResult) count
                  end
                else mkDetection available (granted permissions) count
            end
          else mkDetection available false count
      end
  | _ => mkDetection false false count
  end.

(** X16. [isAvailable] and [requestPermissions] never answer [true] unless
    the accelerometer itself reported that it is available; [isAvailable] is
    [false] on the web; on iOS [requestPermissions] answers [true] only when
    the request was granted, and [isAvailable] answers [false] when the
    permission is denied for good. *)
Theorem availability_answers_are_sound :
  forall (os : Platform) (acc : Accelerometer),
    (isAvailable os acc = true ->
     isAvailableAsync acc = Returns true /\ os <> web)
    /\ (requestPermissions os acc = true ->
        isAvailableAsync acc = Returns true
        /\ (os = ios -> exists p, requestPermissionsAsync acc = Returns p
                                  /\ granted p = true))
    /\ (os = ios ->
        forall p, getPermissionsAsync acc = Returns p ->
                  granted p = false -> canAskAgain p = false ->
                  isAvailable os acc = false).
Proof.
  intros os [[[|]|e1] gp rp]; unfold isAvailable, requestPermissions;
    cbn [isAvailableAsync getPermissionsAsync requestPermissionsAsync].
  - split; [|split].
    + destruct os; intros H; try discriminate; split; congruence.
    + destruct os; intros H; (split; [reflexivity|]); intros E; try discriminate.
      destruct rp as [p|e]; [|discriminate].
      destruct (granted p) eqn:G; [|discriminate]. exists p. split; auto.
    + intros -> p -> G C. rewrite G, C. reflexivity.
  - split; [|split].
    + destruct os; discriminate.
    + discriminate.
    + intros ->. reflexivity.
  - split; [|split].
    + destruct os; discriminate.
    + discriminate.
    + intros ->. reflexivity.
Qed.

(** X17. The dashboard's gate is enough for a start: when [isAvailable] and
    [requestPermissions] have both answered [true], [startStepCounting]
    returns without throwing and the service is listening. A start while
    already listening does nothing; and whenever a start throws, the service
    is not listening afterwards unless it was before. *)
Theorem start_after_the_gate :
  forall (os : Platform) (acc : Accelerometer) (isListening : bool),
    (isAvailable os acc = true -> requestPermissions os acc = true ->
     startStepCounting os acc isListening = (Returns tt, true))
    /\ startStepCounting os acc true = (Returns tt, true)
    /\ (forall error listening,
          startStepCounting os acc isListening = (Throws error, listening) ->
          listening = isListening /\ isListening = false).
Proof.
  intros os [[[|]|e1] gp rp] isListening;
    unfold isAvailable, requestPermissions, startStepCounting;
    cbn [isAvailableAsync getPermissionsAsync requestPermissionsAsync].
  - split; [|split; [reflexivity|]].
    + destruct isListening; [reflexivity|].
      destruct os; try discriminate; try reflexivity.
      intros _. destruct rp as [p|e]; [|discriminate].
      destruct (granted p); [reflexivity|discriminate].
    + intros error listening. destruct isListening; [discriminate|].
      destruct os; try discriminate.
      destruct rp as [p|e]; [destruct (granted p); [discriminate|]|];
        cbn [negb]; intros E; inversion E; split; reflexivity.
  - split; [|split; [reflexivity|]].
    + destruct os; discriminate.
    + intros error listening. destruct isListening; discriminate.
  - split; [|split; [reflexivity|]].
    + destruct os; discriminate.
    + intros error listening. destruct isListening; [discriminate|].
      intros E; inversion E; split; reflexivity.
Qed.

(** X18. [checkAvailability] reports a granted permission only on iOS with
    an available accelerometer, and only when [getPermissionsAsync] or the
    follow-up request said so; off iOS it reports neither availability nor
    permission. It always reports the helper's current count. *)
Theorem checkAvailability_is_sound :
  forall (os : Platform) (acc : Accelerometer) (h : IOSStepCounterHelper.t),
    let r := checkAvailability os acc h in
    det_stepCount r = IOSStepCounterHelper.getStepCount h
    /\ (det_isAvailable r = true ->
        os = ios /\ isAvailableAsync acc = Returns true)
    /\ (det_permissionGranted r = true ->
        det_isAvailable r = true
        /\ ((exists p, getPermissionsAsync acc = Returns p /\ granted p = true)
            \/ (exists p, requestPermissionsAsync acc = Returns p /\ granted p = true))).
Proof.
  intros os [av gp rp] h. cbv zeta. split; [|split].
  - unfold checkAvailability. cbv zeta.
    cbn [isAvailableAsync getPermissionsAsync requestPermissionsAsync].
    destruct os; try reflexivity.
    destruct av as [[|]|e]; try reflexivity.
    destruct gp as [p|e]; try reflexivity.
    destruct (negb (granted p) && canAskAgain p); try reflexivity.
    destruct rp; reflexivity.
  - unfold checkAvailability. cbv zeta.
    cbn [isAvailableAsync getPermissionsAsync requestPermissionsAsync].
    destruct os; try discriminate.
    destruct av as [[|]|e]; try discriminate. intros _. split; reflexivity.
  - unfold checkAvailability. cbv zeta.
    cbn [isAvailableAsync getPermissionsAsync requestPermissionsAsync].
    destruct os; try discriminate.
    destruct av as [[|]|e]; try discriminate.
    destruct gp as [p|e]; try discriminate.
    destruct (granted p) eqn:G; cbn [negb andb].
    + cbn. intros _. split; [reflexivity|]. left. exists p. auto.
    + destruct (canAskAgain p); cbn.
      * destruct rp as [q|e]; cbn; [|discriminate].
        intros Hq. split; [reflexivity|]. right. exists q. auto.
      * discriminate.
Qed.

End Availability.

Definition askable : Availability.Accelerometer :=
  Availability.mkAccelerometer (Returns true)
    (Returns (Availability.mkPermission false true "undetermined"))
    (Returns (Availability.mkPermission true true "granted")).

Definition deniedForGood : Availability.Accelerometer :=
  Availability.mkAccelerometer (Returns true)
    (Returns (Availability.mkPermission false false "denied"))
    (Returns (Availability.mkPermission false false "denied")).

Lemma availability_example :
  (Availability.isAvailableAsync askable = Returns true /\ ios <> web)
  /\ (exists p, Availability.requestPermissionsAsync askable = Returns p
                /\ Availability.granted p = true)
  /\ Availability.isAvailable ios deniedForGood = false.
Proof.
  destruct (Availability.availability_answers_are_sound ios askable)
    as (Available & Requested & _).
  destruct (Availability.availability_answers_are_sound ios deniedForGood)
    as (_ & _ & Denied).
  split; [exact (Available eq_refl)|]. split.
  - destruct (Requested eq_refl) as [_ Granted]. exact (Granted eq_refl).
  - exact (Denied eq_refl _ eq_refl eq_refl eq_refl).
Defined.

Lemma start_example :
  Availability.startStepCounting ios askable false = (Returns tt, true)
  /\ (false = false /\ false = false).
Proof.
  destruct (Availability.start_after_the_gate ios askable false)
    as (Starts & _ & _).
  destruct (Availability.start_after_the_gate ios deniedForGood false)
    as (_ & _ & Throwing).
  split; [exact (Starts eq_refl eq_refl)|].
  exact (Throwing "Error: Motion permissions required for step counting"%string
           false eq_refl).
Defined.

Lemma checkAvailability_example :
  Availability.det_isAvailable
    (Availability.checkAvailability ios askable IOSStepCounterHelper.new) = true
  /\ ((exists p, Availability.getPermissionsAsync askable = Returns p
                 /\ Availability.granted p = true)
      \/ (exists p, Availability.requestPermissionsAsync askable = Returns p
                    /\ Availability.granted p = true)).
Proof.
  destruct (Availability.checkAvailability_is_sound ios askable
              IOSStepCounterHelper.new) as (_ & _ & Granted).
  exact (Granted eq_refl).
Defined.

(** * Beyond the claims: the iOS diagnostic *)

Module Diagnostic.

Import Availability.

(** [Device.isDevice] and [Device.deviceType], either possibly absent. *)
Record Device := mkDevice {
  dev_isDevice : option bool;
  dev_deviceType : option string
}.

Record IOSDiagnosticResult := mkResult {
  res_platform : string;
  res_isDevice : bool;
  res_deviceType : string;
  accelerometerAvailable : bool;
  permissionStatus : string;
  permissionGranted : bool;
  canRequestPermission : bool;
  errors : list string;
  recommendations : list string
}.

Definition osName (os : Platform) : string :=
  match os with
  | ios => "ios"
  | android => "android"
  | web => "web"
  end.

Definition settingsAdvice : string :=
  "Go to Settings > Privacy & Security > Motion & Fitness > SihatAI and enable access".

Definition shouldWork : string := "iOS step counter should work on this device".

(** [IOSStepDiagnostic.runDiagnostic]. *)
Definition runDiagnostic (os : Platform) (dev : Device) (acc : Accelerometer)
    : IOSDiagnosticResult :=
  let isDevice := match dev_isDevice dev with Some b => b | None => false end in
  let deviceType :=
    match dev_deviceType dev with Some t => t | None => "unknown"%string end in
  let result available status isGranted canRequest errs recs :=
    mkResult (osName os) isDevice deviceType available status isGranted
             canRequest errs recs in
  if negb (is_ios os) then
    result false "unknown"%string false false
      [JS.template ["Platform is "; osName os; ", not iOS"]%string]
      ["iOS step counter only works on iOS devices"%string]
  else if negb isDevice then
    result false "unknown"%string false false
      ["Running on iOS Simulator"%string]
      ["iOS step counting requires a real device with motion sensors"%string]
  else
    match isAvailableAsync acc with
    | Throws error =>
        result false "unknown"%string false false
          [JS.template ["Accelerometer check failed: "; error]%string]
          ["Unable to check accelerometer availability"%string]
    | Returns false =>
        result false "unknown"%string false false
          ["Accelerometer not available on this device"%string]
          ["This iOS device does not support motion sensors"%string]
    | Returns true =>
        match getPermissionsAsync acc with
        | Throws error =>
            result true "unknown"%string false false
              [JS.template ["Permission check failed: "; error]%string]
              ["Unable to check motion permissions"%string]
        | Returns permissions =>
            let recs0 :=
              if negb (granted permissions) && canAskAgain permissions
              then ["Motion permission can be requested from user"%string]
              else [] in
            if negb (granted permissions) && negb (canAskAgain permissions) then
              result true (status permissions) (granted permissions)
                (canAskAgain permissions)
                ["Motion permissions permanently denied"%string]
                [settingsAdvice]
            else
              result true (status permissions) (granted permissions)
                (canAskAgain permissions) []
                (if granted permissions || canAskAgain permissions
                 then recs0 ++ [shouldWork] else recs0)
        end
    end.

(** [recommendations.includes(text)]. *)
Definition includes (texts : list string) (text : string) : bool :=
  existsb (String.eqb text) texts.

(** Whether [showDiagnosticDialog] adds the "Open Settings" button. *)
Definition offersOpenSettings (r : IOSDiagnosticResult) : bool :=
  Nat.ltb 0 (length (errors r)) && includes (recommendations r) settingsAdvice.

(** The device can count steps: iOS, a real device, an available
    accelerometer, and a motion permission that is granted or can still be
    asked for. *)
Definition canCount (os : Platform) (dev : Device) (acc : Accelerometer) : bool :=
  is_ios os
  && match dev_isDevice dev with Some b => b | None => false end
  && match isAvailableAsync acc with Returns true => true | _ => false end
  && match getPermissionsAsync acc with
     | Returns p => granted p || canAskAgain p
     | Throws _ => false
     end.

(** The motion permission is denied and cannot be asked for again. *)
Definition deniedPermanently (os : Platform) (dev : Device) (acc : Accelerometer)
    : bool :=
  is_ios os
  && match dev_isDevice dev with Some b => b | None => false end
  && match isAvailableAsync acc with Returns true => true | _ => false end
  && match getPermissionsAsync acc with
     | Returns p => negb (granted p) && negb (canAskAgain p)
     | Throws _ => false
     end.

(** X19. The diagnostic reports no error exactly when the device can count
    steps, and exactly then it recommends that the step counter should work;
    in every other case it reports exactly one error. The dialog offers
    "Open Settings" exactly when the motion permission is denied for good. *)
Theorem diagnostic_verdicts :
  forall (os : Platform) (dev : Device) (acc : Accelerometer),
    let r := runDiagnostic os dev acc in
    length (errors r) = (if canCount os dev acc then 0 else 1)%nat
    /\ includes (recommendations r) shouldWork = canCount os dev acc
    /\ offersOpenSettings r = deniedPermanently os dev acc.
Proof.
  intros os [[[|]|] dt] [[[|]|e1] [[g c s]|e2] rp];
    destruct os; try (repeat split; fail);
    destruct g, c; repeat split.
Qed.

End Diagnostic.

(** * Beyond the claims: the health service's permissions and reads *)

Module HealthKit.

Import IOSHealthService.

(** [interface HealthKitPermissions]. *)
Record HealthKitPermissions := mkPermissions {
  perm_steps : bool;
  perm_heartRate : bool;
  perm_activeEnergy : bool
}.

(** Fields of [IOSHealthService]. *)
Record Service := mkService {
  isAvailable : bool;
  permissions : HealthKitPermissions
}.

(** [new IOSHealthService()]. *)
Definition construct (os : Platform) (isDevice : bool) : Service :=
  mkService (is_ios os && isDevice) (mkPermissions false false false).

Definition isHealthKitAvailable (svc : Service) : bool := isAvailable svc.

Definition requestPermissions (svc : Service) : HealthKitPermissions * Service :=
  if negb (isHealthKitAvailable svc) then (permissions svc, svc)
  else
    let granted := mkPermissions true false true in
    (granted, mkService (isAvailable svc) granted).

(** [getStepCount(date)], [draw] being [Math.floor(Math.random() * 10000)]. *)
Definition getStepCount (svc : Service) (draw : Z) (date : Z) : option HealthData :=
  if negb (isHealthKitAvailable svc) then None
  else if negb (perm_steps (permissions svc)) then None
  else
    let mockSteps := draw + 5000 in
    Some (mkHealthData mockSteps date "iOS Health App (Mock)" 0.95%float).

Definition writeStepCount (svc : Service) (count : Z) (date : Z) : bool :=
  if negb (isHealthKitAvailable svc) then false
  else if negb (perm_steps (permissions svc)) then false
  else false.

(** The method [syncWithHealthKit], with the read it starts with. *)
Definition syncWithHealthKitOf (svc : Service) (draw : Z) (appSteps date : Z)
    : option HealthData :=
  syncWithHealthKit (getStepCount svc draw date) appSteps date.

(** The [while] loop of [getStepCountRange] in the zone [tz]: [fuel] bounds
    the iterations, [draws k] is the draw of the [k]-th read. *)
Fixpoint rangeLoop (fuel : nat) (tz : Calendar.TimeZone) (svc : Service)
    (draws : nat -> Z) (k : nat) (currentDate endDate : Z)
    (results : list HealthData) : option (list HealthData) :=
  match fuel with
  | O => None
  | S fuel' =>
      if currentDate <=? endDate then
        let results1 :=
          match getStepCount svc (draws k) currentDate with
          | Some stepData => results ++ [stepData]
          | None => results
          end in
        rangeLoop fuel' tz svc draws (S k)
          (Calendar.setDateBy tz 1 currentDate) endDate results1
      else Some results
  end.

Definition getStepCountRange (fuel : nat) (tz : Calendar.TimeZone)
    (svc : Service) (draws : nat -> Z) (startDate endDate : Z)
    : option (list HealthData) :=
  if negb (isHealthKitAvailable svc) || negb (perm_steps (permissions svc))
  then Some []
  else rangeLoop fuel tz svc draws 0 startDate endDate [].

(** The date of the [k]-th iteration: [k] times
    [setDate(getDate() + 1)] from the start date. *)
Definition dateAt (tz : Calendar.TimeZone) (startDate : Z) (k : nat) : Z :=
  Nat.iter k (Calendar.setDateBy tz 1) startDate.

(** What the [k]-th read returns, for the date it is asked. *)
Definition mockEntryAt (draws : nat -> Z) (k : nat) (date : Z) : HealthData :=
  mkHealthData (draws k + 5000) date "iOS Health App (Mock)" 0.95%float.

(** The days from [startDate] to [endDate], both included, in a zone whose
    offset never changes. *)
Definition daysInRange (startDate endDate : Z) : nat :=
  Z.to_nat ((endDate - startDate) / msPerDay + 1).

Definition mockEntry (draws : nat -> Z) (startDate : Z) (k : nat) : HealthData :=
  mockEntryAt draws k (startDate + Z.of_nat k * msPerDay).

Lemma daysInRange_next cur endDate :
  cur <= endDate ->
  daysInRange cur endDate = S (daysInRange (cur + msPerDay) endDate).
Proof.
  intros H. unfold daysInRange, msPerDay.
  replace (endDate - (cur + 86400000)) with (endDate - cur + (-1) * 86400000) by lia.
  rewrite Z.div_add by lia.
  assert (0 <= (endDate - cur) / 86400000) by (apply Z.div_pos; lia). lia.
Qed.

Lemma daysInRange_done cur endDate :
  endDate < cur -> daysInRange cur endDate = 0%nat.
Proof.
  intros H. unfold daysInRange, msPerDay.
  assert ((endDate - cur) / 86400000 < 0) by (apply Z.div_lt_upper_bound; lia).
  lia.
Qed.

(** The loop in a zone where a local day forward is at least [minStep]
    later. *)
Lemma rangeLoop_runs tz svc draws endDate minStep :
  0 < minStep ->
  (forall t, t + minStep <= Calendar.setDateBy tz 1 t) ->
  isAvailable svc = true -> perm_steps (permissions svc) = true ->
  forall fuel k cur results,
    (Z.to_nat ((endDate - cur) / minStep + 1) < fuel)%nat ->
    exists n : nat,
      rangeLoop fuel tz svc draws k cur endDate results
      = Some (results
              ++ List.map (fun j => mockEntryAt draws (k + j) (dateAt tz cur j))
                          (seq 0 n))
      /\ (forall j, (j < n)%nat -> dateAt tz cur j <= endDate)
      /\ endDate < dateAt tz cur n.
Proof.
  intros Hmin Hstep Ha Hp.
  induction fuel as [|fuel IH]; intros k cur results Hfuel; [lia|].
  cbn [rangeLoop]. destruct (Z.leb_spec cur endDate) as [Hle|Hgt].
  - set (next := Calendar.setDateBy tz 1 cur).
    assert (Hnext : cur + minStep <= next) by apply Hstep.
    assert (Hq : (endDate - next) / minStep <= (endDate - cur) / minStep - 1).
    { replace ((endDate - cur) / minStep - 1)
        with ((endDate - cur + (-1) * minStep) / minStep)
        by (rewrite Z.div_add by lia; lia).
      apply Z.div_le_mono; lia. }
    assert (0 <= (endDate - cur) / minStep) by (apply Z.div_pos; lia).
    destruct (IH (S k) next
                (match getStepCount svc (draws k) cur with
                 | Some stepData => results ++ [stepData]
                 | None => results
                 end)) as (n & Run & Within & Beyond); [lia|].
    exists (S n). split; [|split].
    + rewrite Run. unfold getStepCount, isHealthKitAvailable.
      rewrite Ha, Hp. cbn [negb seq List.map]. rewrite <- app_assoc. cbn [app].
      do 3 f_equal.
      * unfold mockEntryAt, dateAt. cbn [Nat.iter]. do 3 f_equal. lia.
      * rewrite <- seq_shift, List.map_map. apply List.map_ext. intros j.
        unfold dateAt. rewrite Nat.iter_succ_r. f_equal. lia.
    + intros [|j] Hj; [exact Hle|].
      unfold dateAt. rewrite Nat.iter_succ_r. apply Within. lia.
    + unfold dateAt. rewrite Nat.iter_succ_r. exact Beyond.
  - exists 0%nat. split; [|split].
    + cbn. rewrite app_nil_r. reflexivity.
    + intros j Hj. lia.
    + exact Hgt.
Qed.

(** In a zone whose offset never changes the dates are 24 hours apart, and
    there is one for each day of the range. *)
Lemma rangeLoop_fixedOffset c svc draws endDate startDate :
  isAvailable svc = true -> perm_steps (permissions svc) = true ->
  forall fuel k cur results,
    cur = startDate + Z.of_nat k * msPerDay ->
    (daysInRange cur endDate < fuel)%nat ->
    rangeLoop fuel (Calendar.fixedOffset c) svc draws k cur endDate results
    = Some (results ++ List.map (mockEntry draws startDate)
                                (seq k (daysInRange cur endDate))).
Proof.
  intros Ha Hp. induction fuel as [|fuel IH]; intros k cur results Hcur Hfuel;
    [lia|].
  cbn [rangeLoop]. rewrite Calendar.setDateBy_fixedOffset, Z.mul_1_l.
  destruct (Z.leb_spec cur endDate) as [Hle|Hgt].
  - rewrite (daysInRange_next cur endDate Hle) in Hfuel |- *.
    unfold getStepCount, isHealthKitAvailable. rewrite Ha, Hp. cbn [negb].
    rewrite IH; [|lia|lia].
    cbn [seq List.map]. rewrite <- app_assoc. cbn [app].
    unfold mockEntry at 2, mockEntryAt. rewrite <- Hcur. reflexivity.
  - rewrite (daysInRange_done cur endDate Hgt). cbn. rewrite app_nil_r. reflexivity.
Qed.

Lemma getStepCountRange_fixedOffset c svc draws startDate endDate fuel :
  isAvailable svc = true -> perm_steps (permissions svc) = true ->
  (daysInRange startDate endDate < fuel)%nat ->
  getStepCountRange fuel (Calendar.fixedOffset c) svc draws startDate endDate
  = Some (List.map (mockEntry draws startDate)
                   (seq 0 (daysInRange startDate endDate))).
Proof.
  intros Ha Hp Hfuel. unfold getStepCountRange, isHealthKitAvailable.
  rewrite Ha, Hp. cbn [negb orb].
  rewrite (rangeLoop_fixedOffset c svc draws endDate startDate Ha Hp fuel 0
             startDate []); [reflexivity|lia|exact Hfuel].
Qed.

(** X20. A freshly constructed health service holds no permission, so every
    read returns nothing; [requestPermissions] grants the steps permission
    exactly on a real iOS device and never the heart-rate one, after which a
    read returns mock data of between 5000 and 14999 steps for the date
    asked; [writeStepCount] never reports success. *)
Theorem reads_need_device_and_permission :
  forall (os : Platform) (isDevice : bool) (draw date appSteps : Z),
    0 <= draw < 10000 ->
    let fresh := construct os isDevice in
    let asked := snd (requestPermissions fresh) in
    getStepCount fresh draw date = None
    /\ syncWithHealthKitOf fresh draw appSteps date = None
    /\ perm_steps (permissions asked) = is_ios os && isDevice
    /\ perm_heartRate (permissions asked) = false
    /\ writeStepCount asked appSteps date = false
    /\ match getStepCount asked draw date with
       | Some data =>
           is_ios os && isDevice = true
           /\ 5000 <= hd_steps data < 15000 /\ hd_date data = date
       | None => is_ios os && isDevice = false
       end.
Proof.
  intros os isDevice draw date appSteps Hdraw. cbv zeta.
  unfold construct, requestPermissions, getStepCount, syncWithHealthKitOf,
    writeStepCount, isHealthKitAvailable, syncWithHealthKit.
  cbn [isAvailable permissions perm_steps].
  destruct (is_ios os && isDevice); cbn; repeat split; lia.
Qed.

(** X21. In a time zone where moving a date one day forward on the local
    clock advances the instant by at least [minStep > 0] (24 hours where the
    offset never changes, 23 hours across a daylight-saving change), on an
    available service with the steps permission [getStepCountRange] stops
    (fuel beyond [(endDate - startDate) / minStep + 1] is enough) and
    returns, in order, one entry for each of the dates reached from the
    start date by [setDate(getDate() + 1)] that are not after the end date,
    each entry for its own date; an end before the start gives the empty
    list, and so does a service without availability or permission. *)
Theorem getStepCountRange_one_entry_per_day :
  forall (tz : Calendar.TimeZone) (svc : Service) (draws : nat -> Z)
         (startDate endDate minStep : Z) (fuel : nat),
    0 < minStep ->
    (forall t, t + minStep <= Calendar.setDateBy tz 1 t) ->
    (Z.to_nat ((endDate - startDate) / minStep + 1) < fuel)%nat ->
    (isAvailable svc = true -> perm_steps (permissions svc) = true ->
     exists n : nat,
       getStepCountRange fuel tz svc draws startDate endDate
       = Some (List.map (fun k => mockEntryAt draws k (dateAt tz startDate k))
                        (seq 0 n))
       /\ (forall k, (k < n)%nat -> dateAt tz startDate k <= endDate)
       /\ endDate < dateAt tz startDate n
       /\ (endDate < startDate -> n = 0%nat))
    /\ (isAvailable svc && perm_steps (permissions svc) = false ->
        getStepCountRange fuel tz svc draws startDate endDate = Some []).
Proof.
  intros tz svc draws startDate endDate minStep fuel Hmin Hstep Hfuel. split.
  - intros Ha Hp.
    destruct (rangeLoop_runs tz svc draws endDate minStep Hmin Hstep Ha Hp
                fuel 0%nat startDate [] Hfuel) as (n & Run & Within & Beyond).
    exists n. split; [|split; [exact Within|split; [exact Beyond|]]].
    + unfold getStepCountRange, isHealthKitAvailable.
      rewrite Ha, Hp. cbn [negb orb]. exact Run.
    + intros Hend. destruct n as [|n]; [reflexivity|].
      specialize (Within 0%nat). cbn in Within. lia.
  - intros H. unfold getStepCountRange, isHealthKitAvailable.
    destruct (isAvailable svc), (perm_steps (permissions svc));
      try discriminate; reflexivity.
Qed.

End HealthKit.

Lemma reads_example :
  HealthKit.getStepCount (HealthKit.construct ios true) 1234 1699920000000 = None
  /\ match HealthKit.getStepCount
             (snd (HealthKit.requestPermissions (HealthKit.construct ios true)))
             1234 1699920000000 with
     | Some data =>
         is_ios ios && true = true
         /\ 5000 <= IOSHealthService.hd_steps data < 15000
         /\ IOSHealthService.hd_date data = 1699920000000
     | None => is_ios ios && true = false
     end.
Proof.
  destruct (HealthKit.reads_need_device_and_permission ios true 1234
              1699920000000 7000) as (Fresh & _ & _ & _ & _ & Asked); [lia|].
  split; [exact Fresh|exact Asked].
Defined.

Definition permitted : HealthKit.Service :=
  snd (HealthKit.requestPermissions (HealthKit.construct ios true)).

(** From 2023-11-04T12:00Z to 2023-11-06T12:00Z in New York, across the end
    of daylight saving time. *)
Lemma getStepCountRange_example :
  (exists n : nat,
     HealthKit.getStepCountRange 10 Calendar.newYork2023 permitted
       (fun k => 100 * Z.of_nat k) 1699099200000 1699272000000
     = Some (List.map (fun k => HealthKit.mockEntryAt (fun k => 100 * Z.of_nat k) k
                                 (HealthKit.dateAt Calendar.newYork2023 1699099200000 k))
                      (seq 0 n))
     /\ (forall k, (k < n)%nat ->
         HealthKit.dateAt Calendar.newYork2023 1699099200000 k <= 1699272000000)
     /\ 1699272000000 < HealthKit.dateAt Calendar.newYork2023 1699099200000 n
     /\ (1699272000000 < 1699099200000 -> n = 0%nat))
  /\ HealthKit.getStepCountRange 10 Calendar.newYork2023 (HealthKit.construct ios true)
       (fun k => 100 * Z.of_nat k) 1699099200000 1699272000000
     = Some [].
Proof.
  destruct (HealthKit.getStepCountRange_one_entry_per_day Calendar.newYork2023
              permitted (fun k => 100 * Z.of_nat k)
              1699099200000 1699272000000 82800000 10)
    as (Runs & _); [lia|exact Calendar.newYork2023_advances|vm_compute; lia|].
  destruct (HealthKit.getStepCountRange_one_entry_per_day Calendar.newYork2023
              (HealthKit.construct ios true) (fun k => 100 * Z.of_nat k)
              1699099200000 1699272000000 82800000 10)
    as (_ & Refused); [lia|exact Calendar.newYork2023_advances|vm_compute; lia|].
  split; [exact (Runs eq_refl eq_refl)|exact (Refused eq_refl)].
Defined.

(** The same range read out: the first step is 25 hours long, to
    2023-11-05T13:00Z, so the third date is 2023-11-06T13:00Z, after the
    end, and the range gives two entries; in a zone without the change it
    gives three. *)
Lemma getStepCountRange_across_the_clock_change :
  HealthKit.getStepCountRange 10 Calendar.newYork2023 permitted
    (fun k => 100 * Z.of_nat k) 1699099200000 1699272000000
  = Some [HealthKit.mockEntryAt (fun k => 100 * Z.of_nat k) 0 1699099200000;
          HealthKit.mockEntryAt (fun k => 100 * Z.of_nat k) 1 1699189200000]
  /\ HealthKit.dateAt Calendar.newYork2023 1699099200000 2 = 1699275600000
  /\ HealthKit.getStepCountRange 10 (Calendar.fixedOffset (-18000000)) permitted
       (fun k => 100 * Z.of_nat k) 1699099200000 1699272000000
     = Some [HealthKit.mockEntry (fun k => 100 * Z.of_nat k) 1699099200000 0;
             HealthKit.mockEntry (fun k => 100 * Z.of_nat k) 1699099200000 1;
             HealthKit.mockEntry (fun k => 100 * Z.of_nat k) 1699099200000 2].
Proof.
  split; [vm_compute; reflexivity|]. split; [vm_compute; reflexivity|].
  apply (HealthKit.getStepCountRange_fixedOffset (-18000000) permitted
           (fun k => 100 * Z.of_nat k) 1699099200000 1699272000000 10);
    [reflexivity|reflexivity|vm_compute; lia].
Qed.

(** * Beyond the claims: history after a write, and what a synchronisation
      leaves *)

Module Outcomes.

Import StepCounterService.


(** X23. A synchronisation is all or nothing, and never moves what
    [getCurrentStepCount()] returns. When it reports failure the whole state
    is untouched and the result carries the count held; it reports success
    only on iOS with a count [e] from the health app, and then the service's
    stored count and both counts of the result are [e]. *)
Theorem synchronisation_is_all_or_nothing :
  forall (w : World) (now : Z) (p : HealthProvider),
    let r := eval (syncWithHealthApp now p) w in
    let w1 := exec (syncWithHealthApp now p) w in
    eval getCurrentStepCount w1 = eval getCurrentStepCount w
    /\ (success r = false ->
        w1 = w /\ sync_accelerometerSteps r = stepCount (service w)
        /\ sync_healthAppSteps r = None /\ source r <> health_app)
    /\ (success r = true ->
        platform w = ios
        /\ exists e, getStepsFromHealthApp p = Returns (Some e)
                     /\ stepCount (service w1) = e
                     /\ sync_healthAppSteps r = Some e
                     /\ sync_accelerometerSteps r = e
                     /\ source r = health_app).
Proof.
  intros [os [c lm th lt gap cb] h st ups] now p. cbv zeta.
  rewrite !Startup.getCurrentStepCount_eval.
  unfold syncWithHealthApp, onIOS. Ledger.reduce_monad.
  destruct os; cbn [is_ios]; Ledger.reduce_monad;
    try (split; [reflexivity|]; split; [repeat split; discriminate|discriminate]).
  destruct (isAvailable p) as [[|]|err]; Ledger.reduce_monad;
    try (split; [reflexivity|]; split; [repeat split; discriminate|discriminate]).
  destruct (getStepsFromHealthApp p) as [[e|]|err]; Ledger.reduce_monad;
    try (split; [reflexivity|]; split; [repeat split; discriminate|discriminate]).
  destruct cb; Ledger.reduce_monad; (split; [reflexivity|]);
    (split; [discriminate|]); intros _; (split; [reflexivity|]);
    exists e; repeat split.
Qed.

End Outcomes.


Lemma synchronisation_example :
  exec (StepCounterService.syncWithHealthApp 1699920009000 (healthAnswers None))
       (iosAt 100) = iosAt 100
  /\ (exists e,
        StepCounterService.getStepsFromHealthApp (healthAnswers (Some 50))
        = Returns (Some e)
        /\ stepCount (service (exec (StepCounterService.syncWithHealthApp
                                       1699920009000 (healthAnswers (Some 50)))
                                    (iosAt 100))) = e
        /\ StepCounterService.sync_healthAppSteps
             (eval (StepCounterService.syncWithHealthApp 1699920009000
                      (healthAnswers (Some 50))) (iosAt 100)) = Some e
        /\ StepCounterService.sync_accelerometerSteps
             (eval (StepCounterService.syncWithHealthApp 1699920009000
                      (healthAnswers (Some 50))) (iosAt 100)) = e
        /\ StepCounterService.source
             (eval (StepCounterService.syncWithHealthApp 1699920009000
                      (healthAnswers (Some 50))) (iosAt 100))
           = StepCounterService.health_app).
Proof.
  destruct (Outcomes.synchronisation_is_all_or_nothing (iosAt 100) 1699920009000
              (healthAnswers None)) as (_ & Failure & _).
  destruct (Outcomes.synchronisation_is_all_or_nothing (iosAt 100) 1699920009000
              (healthAnswers (Some 50))) as (_ & _ & Success).
  split.
  - destruct (Failure eq_refl) as [Same _]. exact Same.
  - destruct (Success eq_refl) as [_ Applied]. exact Applied.
Defined.

(** * Beyond the claims: the windowed detector needs a rise *)

Module Rise.

Import IOSStepCounterHelper.

(** Each reading's [|z|] is at or below the value buffered before it. *)
Fixpoint neverRises (previous : float) (rs : list Reading) : Prop :=
  match rs with
  | [] => True
  | (_, (_, _, z)) :: rest =>
      JS.le (JS.Math_abs z) previous = true /\ neverRises (JS.Math_abs z) rest
  end.

Lemma last_tl (l : list float) d :
  (2 <= length l)%nat -> List.last (tl l) d = List.last l d.
Proof.
  destruct l as [|a [|b l]]; cbn [length]; try lia. reflexivity.
Qed.

(** The buffer after the push and the shift ends with the new value, the old
    last value before it. *)
Lemma rolled_tail (b : list float) v :
  (1 <= length b)%nat ->
  let pushed := b ++ [v] in
  let buf := if Nat.ltb bufferSize (length pushed) then tl pushed else pushed in
  (bufferSize <= length buf)%nat ->
  Windowed.newest buf = v /\ Windowed.previous buf = List.last b nan
  /\ List.last buf nan = v.
Proof.
  intros Hb. cbv zeta. unfold Windowed.newest, Windowed.previous, bufferSize.
  rewrite length_app. cbn [length].
  destruct (Nat.ltb_spec 20 (length b + 1)) as [H|H]; intros Hfull.
  - destruct b as [|a b]; [cbn in Hb; lia|]. cbn [app tl] in *.
    rewrite length_app in Hfull. cbn [length] in *.
    rewrite last_last, removelast_last. repeat split.
    change b with (tl (a :: b)) at 1. apply last_tl. cbn [length]. lia.
  - rewrite last_last, removelast_last. repeat split.
Qed.

Lemma detect_without_rise now x y z h :
  (1 <= length (stepBuffer h))%nat ->
  JS.le (JS.Math_abs z) (List.last (stepBuffer h) nan) = true ->
  let r := detectStepFromAcceleration now x y z h in
  fst r = false
  /\ stepCount (snd r) = stepCount h
  /\ (1 <= length (stepBuffer (snd r)))%nat
  /\ List.last (stepBuffer (snd r)) nan = JS.Math_abs z.
Proof.
  intros Hb Hle. cbv zeta. unfold detectStepFromAcceleration. cbv zeta.
  pose proof (rolled_tail (stepBuffer h) (JS.Math_abs z) Hb) as Htail.
  cbv zeta in Htail.
  set (buf := if Nat.ltb bufferSize (length (stepBuffer h ++ [JS.Math_abs z]))
              then tl (stepBuffer h ++ [JS.Math_abs z])
              else stepBuffer h ++ [JS.Math_abs z]) in *.
  assert (Hlast : List.last buf nan = JS.Math_abs z
                  /\ (1 <= length buf)%nat).
  { subst buf. destruct (Nat.ltb _ _).
    - destruct (stepBuffer h) as [|a [|b l]]; cbn [length] in Hb; try lia.
      + cbn. split; [reflexivity|lia].
      + cbn [app tl]. split.
        * change (b :: l ++ [JS.Math_abs z]) with ((b :: l) ++ [JS.Math_abs z]).
          apply last_last.
        * cbn. lia.
    - split; [apply last_last|rewrite length_app; cbn; lia]. }
  destruct Hlast as [Hlast Hlen].
  destruct (Nat.ltb_spec (length buf) bufferSize) as [Hshort|Hfull].
  - cbn [fst snd stepCount stepBuffer]. repeat split; assumption.
  - destruct (Htail Hfull) as (Hnew & Hprev & _).
    rewrite Windowed.nth_newest, Windowed.nth_previous
      by (unfold bufferSize in Hfull; lia).
    rewrite Hnew, Hprev, (le_not_gt _ _ Hle). cbn [andb fst snd stepCount stepBuffer].
    repeat split; assumption.
Qed.

(** X24. The windowed detector needs a rise: from a buffer that is not
    empty, a sequence of readings in which every [|z|] is at or below the one
    before it (a flat or falling signal) never counts a step, whatever the
    threshold and the clock. *)
Theorem signal_that_never_rises_counts_nothing :
  forall (rs : list Reading) (h : t),
    (1 <= length (stepBuffer h))%nat ->
    neverRises (List.last (stepBuffer h) nan) rs ->
    fst (feed rs h) = repeat false (length rs)
    /\ stepCount (snd (feed rs h)) = stepCount h.
Proof.
  induction rs as [|[now [[x y] z]] rest IH]; intros h Hb Hrs;
    [split; reflexivity|].
  destruct Hrs as [Hle Hrest]. cbn [feed length repeat].
  destruct (detect_without_rise now x y z h Hb Hle) as (H1 & H2 & H3 & H4).
  destruct (detectStepFromAcceleration now x y z h) as [fired h1].
  cbn [fst snd] in *. subst fired.
  destruct (IH h1 H3) as [I1 I2]; [rewrite H4; exact Hrest|].
  destruct (feed rest h1) as [flags h2]. cbn [fst snd] in *.
  split; [f_equal; exact I1|congruence].
Qed.

End Rise.

Definition fallingSignal : list IOSStepCounterHelper.Reading :=
  List.map (fun i => (5000 + 400 * Z.of_nat i,
                      (0%float, 0%float, PrimFloat.div 2.0%float (JS.of_Z (Z.of_nat (S i))))))
           (seq 0 25).

Lemma never_rising_example :
  fst (IOSStepCounterHelper.feed fallingSignal
         (snd (IOSStepCounterHelper.feed steadyThenPeak IOSStepCounterHelper.new)))
  = repeat false 25.
Proof.
  destruct (Rise.signal_that_never_rises_counts_nothing fallingSignal
              (snd (IOSStepCounterHelper.feed steadyThenPeak IOSStepCounterHelper.new)))
    as [Flags _].
  - vm_compute. lia.
  - vm_compute. repeat split.
  - exact Flags.
Defined.

Lemma calibration_frame_example :
  let w1 := exec (StepCounterService.calibrate
                    [(50, (0%float, 0%float, 3.0%float));
                     (30001, (0%float, 0%float, 3.0%float))]
                    (StepCounterService.calibrateStepDetection 0)) (iosAt 100) in
  eval StepCounterService.getCurrentStepCount w1
  = eval StepCounterService.getCurrentStepCount (iosAt 100)
  /\ eval Accuracy.getAccuracyEstimate w1
     = eval Accuracy.getAccuracyEstimate (iosAt 100).
Proof.
  cbv zeta.
  destruct (Accuracy.calibration_touches_the_threshold_only
              [(50, (0%float, 0%float, 3.0%float));
               (30001, (0%float, 0%float, 3.0%float))]
              (StepCounterService.calibrateStepDetection 0) (iosAt 100))
    as (_ & _ & _ & _ & _ & OnIOS).
  exact (OnIOS eq_refl).
Defined.
